(** * Financial mathematics utilities: a verification development

    The functions of [finance_utilities_Version1.ts] (the library imported
    by the calculator pages as [@/lib/financial-math]) are embedded below,
    one Rocq definition per exported TypeScript function, and the
    properties the specification states about them are proved.

    ** Number model

    The library computes on JavaScript [number]s, and two embeddings are
    used.

    In the first a [number] is an extended real: a finite value is a real
    number and arithmetic on finite values is exact, while the three
    non-finite values [Infinity], [-Infinity] and [NaN] are kept together
    with the ECMAScript rules that produce and propagate them (division
    by zero, [Infinity - Infinity], [0 * Infinity], [1 ** Infinity], the
    truthiness of [0] and [NaN], [NaN == NaN] being false).  Binary64
    rounding, overflow, underflow and the sign of zero are outside this
    embedding.  The universally quantified theorems live here, and they
    are kept to statements a binary64 evaluation agrees with: control
    flow, the propagation of [NaN] and [Infinity], comparisons of a value
    with the expression that computed it, and tolerances stated on ranges
    of arguments where rounding stays orders of magnitude below the
    tolerance.

    The second embedding, module [Binary64], runs the same functions on
    IEEE 754 doubles.  It is used on concrete inputs, to exhibit what
    rounding, overflow and underflow do where a stated property breaks. *)

From Stdlib Require Import Reals Lra Lia ZArith List Bool String.
From Stdlib Require Import Floats.
From Stdlib Require Uint63.
Import ListNotations.

Local Open Scope R_scope.

#[local] Set Warnings "-inexact-float".

(** ** JavaScript numbers *)

Inductive number : Type :=
| Fin (x : R)
| PInf
| NInf
| NaN.

Coercion Fin : R >-> number.

Declare Scope js_scope.
Delimit Scope js_scope with js.
Bind Scope js_scope with number.

Module Number.

(** [Infinity] carrying the sign of a non-zero real. *)
Definition inf_like (x : R) : number :=
  if Rlt_dec 0 x then PInf else NInf.

Definition neg (a : number) : number :=
  match a with
  | Fin x => Fin (- x)
  | PInf => NInf
  | NInf => PInf
  | NaN => NaN
  end.

(** ECMAScript Number::add. *)
Definition add (a b : number) : number :=
  match a, b with
  | NaN, _ | _, NaN => NaN
  | PInf, NInf | NInf, PInf => NaN
  | PInf, _ | _, PInf => PInf
  | NInf, _ | _, NInf => NInf
  | Fin x, Fin y => Fin (x + y)
  end.

(** ECMAScript Number::subtract: [a - b] is [a + (-b)]. *)
Definition sub (a b : number) : number := add a (neg b).

(** ECMAScript Number::multiply. *)
Definition mul (a b : number) : number :=
  match a, b with
  | NaN, _ | _, NaN => NaN
  | Fin x, Fin y => Fin (x * y)
  | PInf, Fin y | Fin y, PInf =>
      if Req_dec_T y 0 then NaN else inf_like y
  | NInf, Fin y | Fin y, NInf =>
      if Req_dec_T y 0 then NaN else inf_like (- y)
  | PInf, PInf | NInf, NInf => PInf
  | PInf, NInf | NInf, PInf => NInf
  end.

(** ECMAScript Number::divide.  A zero divisor is taken as [+0]. *)
Definition div (a b : number) : number :=
  match a, b with
  | NaN, _ | _, NaN => NaN
  | Fin x, Fin y =>
      if Req_dec_T y 0
      then (if Req_dec_T x 0 then NaN else inf_like x)
      else Fin (x / y)
  | Fin _, (PInf | NInf) => Fin 0
  | PInf, Fin y => if Rlt_dec y 0 then NInf else PInf
  | NInf, Fin y => if Rlt_dec y 0 then PInf else NInf
  | (PInf | NInf), (PInf | NInf) => NaN
  end.

(** The real [e] is an odd integer. *)
Definition odd_integer (e : R) : bool :=
  if Req_dec_T (IZR (Zfloor e)) e then Z.odd (Zfloor e) else false.

(** Real exponentiation of a non-zero finite base by a non-zero finite
    exponent (the last step of Number::exponentiate); [None] when the
    base is negative and the exponent is not an integer. *)
Definition real_power (b e : R) : option R :=
  if Rlt_dec 0 b then Some (Rpower b e)
  else if Req_dec_T (IZR (Zfloor e)) e then Some (powerRZ b (Zfloor e))
  else None.

(** ECMAScript Number::exponentiate, the [**] operator. *)
Definition pow (base exponent : number) : number :=
  match exponent with
  | NaN => NaN
  | Fin e =>
      if Req_dec_T e 0 then Fin 1
      else
        match base with
        | NaN => NaN
        | PInf => if Rlt_dec 0 e then PInf else Fin 0
        | NInf =>
            if Rlt_dec 0 e
            then (if odd_integer e then NInf else PInf)
            else Fin 0
        | Fin b =>
            if Req_dec_T b 0
            then (if Rlt_dec 0 e then Fin 0 else PInf)
            else
              match real_power b e with
              | Some p => Fin p
              | None => NaN
              end
        end
  | PInf =>
      match base with
      | NaN => NaN
      | PInf | NInf => PInf
      | Fin b =>
          if Rlt_dec 1 (Rabs b) then PInf
          else if Req_dec_T (Rabs b) 1 then NaN
          else Fin 0
      end
  | NInf =>
      match base with
      | NaN => NaN
      | PInf | NInf => Fin 0
      | Fin b =>
          if Rlt_dec 1 (Rabs b) then Fin 0
          else if Req_dec_T (Rabs b) 1 then NaN
          else PInf
      end
  end.

(** [Math.log]. *)
Definition log (a : number) : number :=
  match a with
  | NaN | NInf => NaN
  | PInf => PInf
  | Fin x =>
      if Rlt_dec x 0 then NaN
      else if Req_dec_T x 0 then NInf
      else Fin (ln x)
  end.

(** [Math.ceil]. *)
Definition ceil (a : number) : number :=
  match a with
  | Fin x => Fin (IZR (Zceil x))
  | _ => a
  end.

(** The comparison [a <= b]; false as soon as one side is [NaN]. *)
Definition leb (a b : number) : bool :=
  match a, b with
  | NaN, _ | _, NaN => false
  | NInf, _ | _, PInf => true
  | PInf, _ | _, NInf => false
  | Fin x, Fin y => if Rle_dec x y then true else false
  end.

(** ToBoolean on a number: [0] and [NaN] are falsy. *)
Definition truthy (a : number) : bool :=
  match a with
  | NaN => false
  | Fin x => if Req_dec_T x 0 then false else true
  | PInf | NInf => true
  end.

Definition is_finite (a : number) : Prop :=
  match a with Fin _ => True | _ => False end.

(** The comparison [a == b] (and [a === b]) of two numbers: [NaN] is
    equal to nothing, itself included. *)
Definition equals (a b : number) : bool :=
  match a, b with
  | Fin x, Fin y => if Req_dec_T x y then true else false
  | PInf, PInf | NInf, NInf => true
  | _, _ => false
  end.

End Number.

Infix "+" := Number.add : js_scope.
Infix "-" := Number.sub : js_scope.
Infix "*" := Number.mul : js_scope.
Infix "/" := Number.div : js_scope.
Infix "**" := Number.pow (at level 30, right associativity) : js_scope.

(** ** Optional arguments, defaults and exceptions *)

(** An optional parameter [x?: number] is [None] when the caller passes
  [undefined] or omits it. *)
Definition optional : Type := option number.

(** A default parameter [x: number = d]. *)
Definition default_to (d : number) (o : optional) : number :=
match o with
| Some x => x
| None => d
end.

(** The truthiness test [if (x && ...)] on an optional number: the value
  when it is present and truthy. *)
Definition given (o : optional) : option number :=
match o with
| Some x => if Number.truthy x then Some x else None
| None => None
end.

(** The expression [x || d]. *)
Definition or_else (o : optional) (d : number) : number :=
match given o with
| Some x => x
| None => d
end.

Definition present (o : optional) : bool :=
match given o with
| Some _ => true
| None => false
end.

(** [throw new Error(message)]. *)
Inductive exn : Type :=
| Error (message : string).

Inductive completion (A : Type) : Type :=
| Return (value : A)
| Throw (e : exn).

Arguments Return {A} value.
Arguments Throw {A} e.

(** ** Result records *)

Module InterestRateConversion.
Record t : Type := mk {
  simple : number;
  effectiveAnnual : number;
  nominal : number;
  effectivePeriodic : number;
  forceOfInterest : number
}.
End InterestRateConversion.

Module SimpleInterestResult.
Record t : Type := mk {
  principal : number;
  rate : number;
  time : number;
  interest : number;
  futureValue : number
}.
End SimpleInterestResult.

Module CompoundInterestResult.
Record t : Type := mk {
  principal : number;
  rate : number;
  time : number;
  compoundingFreq : number;
  interest : number;
  futureValue : number
}.
End CompoundInterestResult.

Module Problem64Result.
Record t : Type := mk {
  firstPayment : number;
  effectiveAnnualRate : number;
  monthlyEffectiveRate : number;
  futureValueInitial : number;
  targetFund : number;
  firstWithdrawal : number
}.
End Problem64Result.

Module LoanResult.
Record t : Type := mk {
  loanAmount : number;
  interestRate : number;
  termMonths : number;
  monthlyPayment : number;
  totalInterest : number;
  totalPayments : number
}.
End LoanResult.

Module AnnuityResult.
Record t : Type := mk {
  payment : number;
  presentValue : number;
  futureValue : number;
  totalPayments : number;
  totalInterest : number
}.
End AnnuityResult.

(** ** The library *)

Section Library.

Local Open Scope js_scope.
Local Notation "- x" := (Number.neg x) : js_scope.

(** *** Rate conversions *)

Definition convertFromSimple
    (simpleRate timePeriod : number) (compoundingFreq : optional)
    : InterestRateConversion.t :=
  let compoundingFreq := default_to 1 compoundingFreq in
  let r := simpleRate / 100 in
  let t := timePeriod in
  let m := compoundingFreq in
  let effectiveAnnual := (1 + r * t) ** (1 / t) - 1 in
  let nominal := m * ((1 + r * t) ** (1 / (m * t)) - 1) in
  let effectivePeriodic := (1 + r * t) ** (1 / (m * t)) - 1 in
  let forceOfInterest := Number.log (1 + r * t) / t in
  {| InterestRateConversion.simple := simpleRate;
     InterestRateConversion.effectiveAnnual := effectiveAnnual * 100;
     InterestRateConversion.nominal := nominal * 100;
     InterestRateConversion.effectivePeriodic := effectivePeriodic * 100;
     InterestRateConversion.forceOfInterest := forceOfInterest * 100 |}.

Definition convertFromEffectiveAnnual
    (effectiveRate : number) (compoundingFreq timePeriod : optional)
    : InterestRateConversion.t :=
  let compoundingFreq := default_to 1 compoundingFreq in
  let timePeriod := default_to 1 timePeriod in
  let r := effectiveRate / 100 in
  let m := compoundingFreq in
  let t := timePeriod in
  let simple := ((1 + r) ** t - 1) / t in
  let nominal := m * ((1 + r) ** (1 / m) - 1) in
  let effectivePeriodic := (1 + r) ** (1 / m) - 1 in
  let forceOfInterest := Number.log (1 + r) in
  {| InterestRateConversion.simple := simple * 100;
     InterestRateConversion.effectiveAnnual := effectiveRate;
     InterestRateConversion.nominal := nominal * 100;
     InterestRateConversion.effectivePeriodic := effectivePeriodic * 100;
     InterestRateConversion.forceOfInterest := forceOfInterest * 100 |}.

(** *** Simple interest *)

Definition insufficient_parameters : exn :=
  Error "Insufficient parameters for calculation".

Definition calculateSimpleInterest
    (principal rate time futureValue : optional)
    : completion SimpleInterestResult.t :=
  match given principal, given rate, given time with
  | Some principal, Some rate, Some time =>
      let interest := principal * (rate / 100) * time in
      Return {| SimpleInterestResult.principal := principal;
                SimpleInterestResult.rate := rate;
                SimpleInterestResult.time := time;
                SimpleInterestResult.interest := interest;
                SimpleInterestResult.futureValue := principal + interest |}
  | _, _, _ =>
  match given futureValue, given rate, given time with
  | Some futureValue, Some rate, Some time =>
      let calculatedPrincipal := futureValue / (1 + (rate / 100) * time) in
      let interest := futureValue - calculatedPrincipal in
      Return {| SimpleInterestResult.principal := calculatedPrincipal;
                SimpleInterestResult.rate := rate;
                SimpleInterestResult.time := time;
                SimpleInterestResult.interest := interest;
                SimpleInterestResult.futureValue := futureValue |}
  | _, _, _ =>
  match given principal, given futureValue, given time with
  | Some principal, Some futureValue, Some time =>
      let calculatedRate :=
        ((futureValue - principal) / (principal * time)) * 100 in
      let interest := futureValue - principal in
      Return {| SimpleInterestResult.principal := principal;
                SimpleInterestResult.rate := calculatedRate;
                SimpleInterestResult.time := time;
                SimpleInterestResult.interest := interest;
                SimpleInterestResult.futureValue := futureValue |}
  | _, _, _ =>
  match given principal, given rate, given futureValue with
  | Some principal, Some rate, Some futureValue =>
      let calculatedTime :=
        (futureValue - principal) / (principal * (rate / 100)) in
      let interest := futureValue - principal in
      Return {| SimpleInterestResult.principal := principal;
                SimpleInterestResult.rate := rate;
                SimpleInterestResult.time := calculatedTime;
                SimpleInterestResult.interest := interest;
                SimpleInterestResult.futureValue := futureValue |}
  | _, _, _ => Throw insufficient_parameters
  end end end end.

(** *** Compound interest *)

Definition calculateCompoundInterest
    (principal rate time compoundingFreq futureValue : optional)
    : completion CompoundInterestResult.t :=
  let compoundingFreq := default_to 1 compoundingFreq in
  match given principal, given rate, given time with
  | Some principal, Some rate, Some time =>
      let r := rate / 100 in
      let calculatedFV :=
        principal * (1 + r / compoundingFreq) ** (compoundingFreq * time) in
      let interest := calculatedFV - principal in
      Return {| CompoundInterestResult.principal := principal;
                CompoundInterestResult.rate := rate;
                CompoundInterestResult.time := time;
                CompoundInterestResult.compoundingFreq := compoundingFreq;
                CompoundInterestResult.interest := interest;
                CompoundInterestResult.futureValue := calculatedFV |}
  | _, _, _ =>
  match given futureValue, given rate, given time with
  | Some futureValue, Some rate, Some time =>
      let r := rate / 100 in
      let calculatedPrincipal :=
        futureValue
        / ((1 + r / compoundingFreq) ** (compoundingFreq * time)) in
      let interest := futureValue - calculatedPrincipal in
      Return {| CompoundInterestResult.principal := calculatedPrincipal;
                CompoundInterestResult.rate := rate;
                CompoundInterestResult.time := time;
                CompoundInterestResult.compoundingFreq := compoundingFreq;
                CompoundInterestResult.interest := interest;
                CompoundInterestResult.futureValue := futureValue |}
  | _, _, _ =>
  match given principal, given futureValue, given time with
  | Some principal, Some futureValue, Some time =>
      let calculatedRate :=
        compoundingFreq
        * (((futureValue / principal) ** (1 / (compoundingFreq * time))) - 1)
        * 100 in
      let interest := futureValue - principal in
      Return {| CompoundInterestResult.principal := principal;
                CompoundInterestResult.rate := calculatedRate;
                CompoundInterestResult.time := time;
                CompoundInterestResult.compoundingFreq := compoundingFreq;
                CompoundInterestResult.interest := interest;
                CompoundInterestResult.futureValue := futureValue |}
  | _, _, _ =>
  match given principal, given rate, given futureValue with
  | Some principal, Some rate, Some futureValue =>
      let r := rate / 100 in
      let calculatedTime :=
        Number.log (futureValue / principal)
        / (compoundingFreq * Number.log (1 + r / compoundingFreq)) in
      let interest := futureValue - principal in
      Return {| CompoundInterestResult.principal := principal;
                CompoundInterestResult.rate := rate;
                CompoundInterestResult.time := calculatedTime;
                CompoundInterestResult.compoundingFreq := compoundingFreq;
                CompoundInterestResult.interest := interest;
                CompoundInterestResult.futureValue := futureValue |}
  | _, _, _ => Throw insufficient_parameters
  end end end end.

(** *** Problem 6.4 solver *)

(** The loop [for (let month = 1; month <= bound; month++) { acc = body }]
    started at [month] with accumulator [acc]; [None] when [fuel]
    iterations did not reach the exit test. *)
Fixpoint for_month (fuel : nat) (bound : number)
    (body : number -> number -> number) (month acc : number)
    : option number :=
  match fuel with
  | O => None
  | S fuel' =>
      if Number.leb month bound
      then for_month fuel' bound body (month + 1) (body month acc)
      else Some acc
  end.

(** Body of the first loop: the discounted withdrawal of one month is
    added to [pvWithdrawals]. *)
Definition withdrawal_step
    (inflationRate monthlyEffectiveRate firstWithdrawal : number)
    (month pvWithdrawals : number) : number :=
  let yearNumber := Number.ceil (month / 12) in
  let monthlyWithdrawal :=
    firstWithdrawal * (1 + inflationRate / 100) ** (yearNumber - 1) in
  pvWithdrawals + monthlyWithdrawal / (1 + monthlyEffectiveRate) ** month.

(** Body of the second loop: the accumulated value of one month's
    inflation-escalated contribution is added to [annuityFactor]. *)
Definition contribution_step
    (inflationRate monthlyEffectiveRate investmentYears : number)
    (month annuityFactor : number) : number :=
  let yearNumber := Number.ceil (month / 12) in
  let inflationFactor := (1 + inflationRate / 100) ** (yearNumber - 1) in
  annuityFactor
  + inflationFactor
    * (1 + monthlyEffectiveRate) ** (investmentYears * 12 - month).

(** The part of [solveProblem64] that follows the computation of
    [monthlyInflationRate] and [realMonthlyRate], as a function of the
    local constants in scope at that point. *)
Definition problem64_funding (fuel : nat)
    (inflationRate investmentYears withdrawalYears : number)
    (effectiveAnnualRate monthlyEffectiveRate : number)
    (futureValueInitial firstWithdrawal : number)
    (monthlyInflationRate realMonthlyRate : number)
    : option Problem64Result.t :=
  match
    for_month fuel (withdrawalYears * 12)
      (withdrawal_step inflationRate monthlyEffectiveRate firstWithdrawal)
      1 0
  with
  | None => None
  | Some pvWithdrawals =>
      let targetFund := pvWithdrawals in
      let requiredFromPayments := targetFund - futureValueInitial in
      match
        for_month fuel (investmentYears * 12)
          (contribution_step inflationRate monthlyEffectiveRate
             investmentYears)
          1 0
      with
      | None => None
      | Some annuityFactor =>
          let firstPayment := requiredFromPayments / annuityFactor in
          Some {| Problem64Result.firstPayment := firstPayment;
                  Problem64Result.effectiveAnnualRate :=
                    effectiveAnnualRate * 100;
                  Problem64Result.monthlyEffectiveRate :=
                    monthlyEffectiveRate * 100;
                  Problem64Result.futureValueInitial := futureValueInitial;
                  Problem64Result.targetFund := targetFund;
                  Problem64Result.firstWithdrawal := firstWithdrawal |}
      end
  end.

Definition solveProblem64 (fuel : nat)
    (nominalRate initialInvestment inflationRate : optional)
    (firstWithdrawalValue investmentYears withdrawalYears : optional)
    : option Problem64Result.t :=
  let nominalRate := default_to 12 nominalRate in
  let initialInvestment := default_to 10000 initialInvestment in
  let inflationRate := default_to 8 inflationRate in
  let firstWithdrawalValue := default_to 5000 firstWithdrawalValue in
  let investmentYears := default_to 40 investmentYears in
  let withdrawalYears := default_to 20 withdrawalYears in
  let monthlyNominalRate := nominalRate / 100 / 12 in
  let effectiveAnnualRate := (1 + monthlyNominalRate) ** 12 - 1 in
  let monthlyEffectiveRate := (1 + effectiveAnnualRate) ** (1 / 12) - 1 in
  let futureValueInitial :=
    initialInvestment * (1 + effectiveAnnualRate) ** investmentYears in
  let firstWithdrawal :=
    firstWithdrawalValue * (1 + inflationRate / 100) ** investmentYears in
  let monthlyInflationRate := (1 + inflationRate / 100) ** (1 / 12) - 1 in
  let realMonthlyRate :=
    (1 + monthlyEffectiveRate) / (1 + monthlyInflationRate) - 1 in
  problem64_funding fuel inflationRate investmentYears withdrawalYears
    effectiveAnnualRate monthlyEffectiveRate futureValueInitial
    firstWithdrawal monthlyInflationRate realMonthlyRate.

(** *** Loans *)

Definition calculateLoan (loanAmount annualRate termYears : number)
    : LoanResult.t :=
  let monthlyRate := annualRate / 100 / 12 in
  let termMonths := termYears * 12 in
  let monthlyPayment :=
    loanAmount
    * (monthlyRate * (1 + monthlyRate) ** termMonths)
    / ((1 + monthlyRate) ** termMonths - 1) in
  let totalPayments := monthlyPayment * termMonths in
  let totalInterest := totalPayments - loanAmount in
  {| LoanResult.loanAmount := loanAmount;
     LoanResult.interestRate := annualRate;
     LoanResult.termMonths := termMonths;
     LoanResult.monthlyPayment := monthlyPayment;
     LoanResult.totalInterest := totalInterest;
     LoanResult.totalPayments := totalPayments |}.

(** *** Annuities *)

Definition insufficient_annuity_parameters : exn :=
  Error "Insufficient parameters for annuity calculation".

Definition calculateOrdinaryAnnuity
    (payment rate periods presentValue futureValue : optional)
    : completion AnnuityResult.t :=
  let r := or_else rate 0 / 100 in
  let n := or_else periods 0 in
  match given payment, given rate, given periods with
  | Some payment, Some _, Some _ =>
      let pv := payment * (1 - (1 + r) ** (- n)) / r in
      let fv := payment * (((1 + r) ** n - 1) / r) in
      Return {| AnnuityResult.payment := payment;
                AnnuityResult.presentValue := pv;
                AnnuityResult.futureValue := fv;
                AnnuityResult.totalPayments := payment * n;
                AnnuityResult.totalInterest := fv - (payment * n) |}
  | _, _, _ =>
  match given presentValue, given rate, given periods with
  | Some presentValue, Some _, Some _ =>
      let pmt := (presentValue * r) / (1 - (1 + r) ** (- n)) in
      let fv := pmt * (((1 + r) ** n - 1) / r) in
      Return {| AnnuityResult.payment := pmt;
                AnnuityResult.presentValue := presentValue;
                AnnuityResult.futureValue := fv;
                AnnuityResult.totalPayments := pmt * n;
                AnnuityResult.totalInterest := fv - (pmt * n) |}
  | _, _, _ =>
  match given futureValue, given rate, given periods with
  | Some futureValue, Some _, Some _ =>
      let pmt := (futureValue * r) / ((1 + r) ** n - 1) in
      let pv := pmt * (1 - (1 + r) ** (- n)) / r in
      Return {| AnnuityResult.payment := pmt;
                AnnuityResult.presentValue := pv;
                AnnuityResult.futureValue := futureValue;
                AnnuityResult.totalPayments := pmt * n;
                AnnuityResult.totalInterest := futureValue - (pmt * n) |}
  | _, _, _ => Throw insufficient_annuity_parameters
  end end end.

End Library.

(** ** The rest of the library and its callers *)

(** A row of the amortization table and a point of the growth chart. *)

Module AmortizationEntry.
Record t : Type := mk {
  payment : number;
  principalPayment : number;
  interestPayment : number;
  remainingBalance : number
}.
End AmortizationEntry.

Module ChartPoint.
Record t : Type := mk {
  year : number;
  value : number
}.
End ChartPoint.

Section Callers.

Local Open Scope js_scope.

(** *** Conversion from a nominal rate *)

Definition convertFromNominal
    (nominalRate compoundingFreq : number) (targetCompoundingFreq : optional)
    : InterestRateConversion.t :=
  let targetCompoundingFreq := default_to 1 targetCompoundingFreq in
  let r := nominalRate / 100 in
  let m := compoundingFreq in
  let m2 := targetCompoundingFreq in
  let effectiveAnnual := (1 + r / m) ** m - 1 in
  let simple := effectiveAnnual in
  let targetNominal := m2 * ((1 + r / m) ** (m / m2) - 1) in
  let effectivePeriodic := (1 + r / m) ** (m / m2) - 1 in
  let forceOfInterest := Number.log (1 + r / m) * m in
  {| InterestRateConversion.simple := simple * 100;
     InterestRateConversion.effectiveAnnual := effectiveAnnual * 100;
     InterestRateConversion.nominal := targetNominal * 100;
     InterestRateConversion.effectivePeriodic := effectivePeriodic * 100;
     InterestRateConversion.forceOfInterest := forceOfInterest * 100 |}.

(** *** [Math.max] and [Math.round] *)

(** [Math.max(a, b)]: [NaN] as soon as one argument is [NaN]. *)
Definition math_max (a b : number) : number :=
  match a, b with
  | NaN, _ | _, NaN => NaN
  | PInf, _ | _, PInf => PInf
  | NInf, x | x, NInf => x
  | Fin x, Fin y => Fin (Rmax x y)
  end.


(** The loop [for (let i = start; i <= bound; i++) { state = body }] over
    an arbitrary state; [None] when [fuel] iterations did not reach the
    exit test. *)
Fixpoint for_upto {A : Type} (fuel : nat) (bound : number)
    (body : number -> A -> A) (i : number) (state : A) : option A :=
  match fuel with
  | O => None
  | S fuel' =>
      if Number.leb i bound
      then for_upto fuel' bound body (i + 1) (body i state)
      else Some state
  end.

(** *** The amortization table of the loan page *)

(** One iteration of the loop of [generateAmortizationTable], on the pair
    of the locals [remainingBalance] and [table]. *)
Definition amortization_step (monthlyRate monthlyPayment : number)
    (month : number) (state : number * list AmortizationEntry.t)
    : number * list AmortizationEntry.t :=
  let '(remainingBalance, table) := state in
  let interestPayment := remainingBalance * monthlyRate in
  let principalPayment := monthlyPayment - interestPayment in
  let remainingBalance :=
    math_max 0 (remainingBalance - principalPayment) in
  (remainingBalance,
   table ++ [ {| AmortizationEntry.payment := month;
                 AmortizationEntry.principalPayment := principalPayment;
                 AmortizationEntry.interestPayment := interestPayment;
                 AmortizationEntry.remainingBalance := remainingBalance |} ]).

(** [generateAmortizationTable] of [LoanCalculator]; the table it passes
    to [setAmortizationTable] is the result. *)
Definition generateAmortizationTable (fuel : nat)
    (principal annualRate years monthlyPayment : number)
    : option (list AmortizationEntry.t) :=
  let monthlyRate := annualRate / 100 / 12 in
  let totalPayments := years * 12 in
  let table := [] in
  let remainingBalance := principal in
  match
    for_upto fuel totalPayments
      (amortization_step monthlyRate monthlyPayment)
      1 (remainingBalance, table)
  with
  | None => None
  | Some (_, table) => Some table
  end.

(** *** The growth chart of the compound-interest page *)


End Callers.

(** *** Predicates used in the statements *)

(** A horizon the loop counter reaches: a finite number of years up to a
    million (the counter [month] is then an exact integer in binary64 as
    well), or a value for which the loop test fails at once. *)
Definition reachable_horizon (years : optional) : Prop :=
  match years with
  | Some (Fin y) => (y <= 1000000)%R
  | Some PInf => False
  | _ => True
  end.

(** A number that does not compare below zero: [NaN], [Infinity] or a
    finite number from [0] on. *)
Definition not_negative (a : number) : Prop :=
  match a with
  | Fin b => (0 <= b)%R
  | NInf => False
  | _ => True
  end.

(** ** Binary64 evaluation

    The functions above compute in exact arithmetic.  Where a property
    turns on what rounding, overflow or underflow do, the functions it
    concerns are embedded a second time, over IEEE 754 binary64 values
    (Rocq's primitive floats, whose [+ - * /] are the operations of a
    JavaScript [number], round-to-nearest-even included), so that they can
    be run on concrete inputs.

    ECMAScript fixes [x ** y] and [Math.log(x)] only in special cases and
    otherwise asks for "an implementation-approximated value".  A value
    of that kind is [Approx] below: a double this model says nothing
    about.  [**] is taken to be exact in two more cases, where the
    mathematical result is one of the operands: [x ** 1] is [x] and
    [1 ** y] is [1] for a finite [y]. *)

Module Binary64.

Inductive number : Type :=
| Val (f : float)
| Approx.

Coercion Val : float >-> number.

Declare Scope b64_scope.
Delimit Scope b64_scope with b64.
Bind Scope b64_scope with number.

Definition lift2 (op : float -> float -> float) (a b : number) : number :=
  match a, b with
  | Val x, Val y => Val (op x y)
  | _, _ => Approx
  end.

Definition add : number -> number -> number := lift2 PrimFloat.add.
Definition sub : number -> number -> number := lift2 PrimFloat.sub.
Definition mul : number -> number -> number := lift2 PrimFloat.mul.
Definition div : number -> number -> number := lift2 PrimFloat.div.

(** Number::exponentiate on doubles, as far as it is determined. *)
Definition pow_float (base exponent : float) : number :=
  if PrimFloat.is_nan exponent then Val nan
  else if PrimFloat.eqb exponent 0 then Val 1
  else if PrimFloat.is_nan base then Val nan
  else if PrimFloat.eqb exponent 1 then Val base
  else if PrimFloat.eqb base 1
       then (if PrimFloat.is_infinity exponent then Val nan else Val 1)
  else Approx.

Definition pow (base exponent : number) : number :=
  match base, exponent with
  | Val b, Val e => pow_float b e
  | _, _ => Approx
  end.

(** [Math.log] on doubles, as far as it is determined. *)
Definition log (a : number) : number :=
  match a with
  | Val x =>
      if PrimFloat.is_nan x then Val nan
      else if PrimFloat.ltb x 0 then Val nan
      else if PrimFloat.eqb x 0 then Val neg_infinity
      else if PrimFloat.eqb x infinity then Val infinity
      else Approx
  | Approx => Approx
  end.

(** The double of a small non-negative integer. *)
Definition of_Z (z : Z) : float := PrimFloat.of_uint63 (Uint63.of_Z z).

(** [Math.ceil] on a double: the least integer not below it.  A finite
    double is [(-1)^s * m * 2^e]; it is an integer already when
    [e >= 0]. *)
Definition ceil_float (x : float) : float :=
  match Prim2SF x with
  | S754_finite s m e =>
      if (0 <=? e)%Z then x
      else
        let d := (2 ^ (- e))%Z in
        let q := (Zpos m / d)%Z in
        if s then PrimFloat.opp (of_Z q)
        else if (Zpos m mod d =? 0)%Z then of_Z q
        else of_Z (q + 1)
  | _ => x
  end.

Definition ceil (a : number) : number :=
  match a with
  | Val x => Val (ceil_float x)
  | Approx => Approx
  end.

(** ToBoolean on a double: [0], [-0] and [NaN] are falsy. *)
Definition truthy (x : float) : bool :=
  negb (PrimFloat.eqb x 0 || PrimFloat.is_nan x).

(** An optional argument: [None] is [undefined]. *)
Definition optional : Type := option float.

Definition default_to (d : float) (o : optional) : float :=
  match o with
  | Some x => x
  | None => d
  end.

Definition given (o : optional) : option float :=
  match o with
  | Some x => if truthy x then Some x else None
  | None => None
  end.

Module InterestRateConversion.
Record t : Type := mk {
  simple : number;
  effectiveAnnual : number;
  nominal : number;
  effectivePeriodic : number;
  forceOfInterest : number
}.
End InterestRateConversion.

Module SimpleInterestResult.
Record t : Type := mk {
  principal : number;
  rate : number;
  time : number;
  interest : number;
  futureValue : number
}.
End SimpleInterestResult.

Module CompoundInterestResult.
Record t : Type := mk {
  principal : number;
  rate : number;
  time : number;
  compoundingFreq : number;
  interest : number;
  futureValue : number
}.
End CompoundInterestResult.

Module Problem64Result.
Record t : Type := mk {
  firstPayment : number;
  effectiveAnnualRate : number;
  monthlyEffectiveRate : number;
  futureValueInitial : number;
  targetFund : number;
  firstWithdrawal : number
}.
End Problem64Result.

Section Library64.

Local Open Scope float_scope.
Local Open Scope b64_scope.
Local Infix "+" := add : b64_scope.
Local Infix "-" := sub : b64_scope.
Local Infix "*" := mul : b64_scope.
Local Infix "/" := div : b64_scope.
Local Infix "**" := pow (at level 30, right associativity) : b64_scope.

Definition convertFromSimple
    (simpleRate timePeriod : float) (compoundingFreq : optional)
    : InterestRateConversion.t :=
  let compoundingFreq := default_to 1 compoundingFreq in
  let r := simpleRate / 100 in
  let t := timePeriod in
  let m := compoundingFreq in
  let effectiveAnnual := (1 + r * t) ** (1 / t) - 1 in
  let nominal := m * ((1 + r * t) ** (1 / (m * t)) - 1) in
  let effectivePeriodic := (1 + r * t) ** (1 / (m * t)) - 1 in
  let forceOfInterest := log (1 + r * t) / t in
  {| InterestRateConversion.simple := simpleRate;
     InterestRateConversion.effectiveAnnual := effectiveAnnual * 100;
     InterestRateConversion.nominal := nominal * 100;
     InterestRateConversion.effectivePeriodic := effectivePeriodic * 100;
     InterestRateConversion.forceOfInterest := forceOfInterest * 100 |}.

Definition convertFromEffectiveAnnual
    (effectiveRate : float) (compoundingFreq timePeriod : optional)
    : InterestRateConversion.t :=
  let compoundingFreq := default_to 1 compoundingFreq in
  let timePeriod := default_to 1 timePeriod in
  let r := effectiveRate / 100 in
  let m := compoundingFreq in
  let t := timePeriod in
  let simple := ((1 + r) ** t - 1) / t in
  let nominal := m * ((1 + r) ** (1 / m) - 1) in
  let effectivePeriodic := (1 + r) ** (1 / m) - 1 in
  let forceOfInterest := log (1 + r) in
  {| InterestRateConversion.simple := simple * 100;
     InterestRateConversion.effectiveAnnual := effectiveRate;
     InterestRateConversion.nominal := nominal * 100;
     InterestRateConversion.effectivePeriodic := effectivePeriodic * 100;
     InterestRateConversion.forceOfInterest := forceOfInterest * 100 |}.

Definition calculateSimpleInterest
    (principal rate time futureValue : optional)
    : completion SimpleInterestResult.t :=
  match given principal, given rate, given time with
  | Some principal, Some rate, Some time =>
      let interest := principal * (rate / 100) * time in
      Return {| SimpleInterestResult.principal := principal;
                SimpleInterestResult.rate := rate;
                SimpleInterestResult.time := time;
                SimpleInterestResult.interest := interest;
                SimpleInterestResult.futureValue := principal + interest |}
  | _, _, _ =>
  match given futureValue, given rate, given time with
  | Some futureValue, Some rate, Some time =>
      let calculatedPrincipal := futureValue / (1 + (rate / 100) * time) in
      let interest := futureValue - calculatedPrincipal in
      Return {| SimpleInterestResult.principal := calculatedPrincipal;
                SimpleInterestResult.rate := rate;
                SimpleInterestResult.time := time;
                SimpleInterestResult.interest := interest;
                SimpleInterestResult.futureValue := futureValue |}
  | _, _, _ =>
  match given principal, given futureValue, given time with
  | Some principal, Some futureValue, Some time =>
      let calculatedRate :=
        ((futureValue - principal) / (principal * time)) * 100 in
      let interest := futureValue - principal in
      Return {| SimpleInterestResult.principal := principal;
                SimpleInterestResult.rate := calculatedRate;
                SimpleInterestResult.time := time;
                SimpleInterestResult.interest := interest;
                SimpleInterestResult.futureValue := futureValue |}
  | _, _, _ =>
  match given principal, given rate, given futureValue with
  | Some principal, Some rate, Some futureValue =>
      let calculatedTime :=
        (futureValue - principal) / (principal * (rate / 100)) in
      let interest := futureValue - principal in
      Return {| SimpleInterestResult.principal := principal;
                SimpleInterestResult.rate := rate;
                SimpleInterestResult.time := calculatedTime;
                SimpleInterestResult.interest := interest;
                SimpleInterestResult.futureValue := futureValue |}
  | _, _, _ => Throw insufficient_parameters
  end end end end.

Definition calculateCompoundInterest
    (principal rate time compoundingFreq futureValue : optional)
    : completion CompoundInterestResult.t :=
  let compoundingFreq := default_to 1 compoundingFreq in
  match given principal, given rate, given time with
  | Some principal, Some rate, Some time =>
      let r := rate / 100 in
      let calculatedFV :=
        principal * (1 + r / compoundingFreq) ** (compoundingFreq * time) in
      let interest := calculatedFV - principal in
      Return {| CompoundInterestResult.principal := principal;
                CompoundInterestResult.rate := rate;
                CompoundInterestResult.time := time;
                CompoundInterestResult.compoundingFreq := compoundingFreq;
                CompoundInterestResult.interest := interest;
                CompoundInterestResult.futureValue := calculatedFV |}
  | _, _, _ =>
  match given futureValue, given rate, given time with
  | Some futureValue, Some rate, Some time =>
      let r := rate / 100 in
      let calculatedPrincipal :=
        futureValue
        / ((1 + r / compoundingFreq) ** (compoundingFreq * time)) in
      let interest := futureValue - calculatedPrincipal in
      Return {| CompoundInterestResult.principal := calculatedPrincipal;
                CompoundInterestResult.rate := rate;
                CompoundInterestResult.time := time;
                CompoundInterestResult.compoundingFreq := compoundingFreq;
                CompoundInterestResult.interest := interest;
                CompoundInterestResult.futureValue := futureValue |}
  | _, _, _ =>
  match given principal, given futureValue, given time with
  | Some principal, Some futureValue, Some time =>
      let calculatedRate :=
        compoundingFreq
        * (((futureValue / principal) ** (1 / (compoundingFreq * time))) - 1)
        * 100 in
      let interest := futureValue - principal in
      Return {| CompoundInterestResult.principal := principal;
                CompoundInterestResult.rate := calculatedRate;
                CompoundInterestResult.time := time;
                CompoundInterestResult.compoundingFreq := compoundingFreq;
                CompoundInterestResult.interest := interest;
                CompoundInterestResult.futureValue := futureValue |}
  | _, _, _ =>
  match given principal, given rate, given futureValue with
  | Some principal, Some rate, Some futureValue =>
      let r := rate / 100 in
      let calculatedTime :=
        log (futureValue / principal)
        / (compoundingFreq * log (1 + r / compoundingFreq)) in
      let interest := futureValue - principal in
      Return {| CompoundInterestResult.principal := principal;
                CompoundInterestResult.rate := rate;
                CompoundInterestResult.time := calculatedTime;
                CompoundInterestResult.compoundingFreq := compoundingFreq;
                CompoundInterestResult.interest := interest;
                CompoundInterestResult.futureValue := futureValue |}
  | _, _, _ => Throw insufficient_parameters
  end end end end.

(** The loop [for (let month = 1; month <= bound; month++) { acc = body }];
    the counter and the bound are doubles, [None] when [fuel] iterations
    did not reach the exit test. *)
Fixpoint for_month (fuel : nat) (bound : float)
    (body : float -> number -> number) (month : float) (acc : number)
    : option number :=
  match fuel with
  | O => None
  | S fuel' =>
      if PrimFloat.leb month bound
      then for_month fuel' bound body (PrimFloat.add month 1) (body month acc)
      else Some acc
  end.

Definition withdrawal_step
    (inflationRate : float) (monthlyEffectiveRate firstWithdrawal : number)
    (month : float) (pvWithdrawals : number) : number :=
  let yearNumber := ceil (month / 12) in
  let monthlyWithdrawal :=
    firstWithdrawal * (1 + inflationRate / 100) ** (yearNumber - 1) in
  pvWithdrawals + monthlyWithdrawal / (1 + monthlyEffectiveRate) ** month.

Definition contribution_step
    (inflationRate : float) (monthlyEffectiveRate : number)
    (investmentYears : float)
    (month : float) (annuityFactor : number) : number :=
  let yearNumber := ceil (month / 12) in
  let inflationFactor := (1 + inflationRate / 100) ** (yearNumber - 1) in
  annuityFactor
  + inflationFactor
    * (1 + monthlyEffectiveRate) ** (investmentYears * 12 - month).

Definition solveProblem64 (fuel : nat)
    (nominalRate initialInvestment inflationRate : optional)
    (firstWithdrawalValue investmentYears withdrawalYears : optional)
    : option Problem64Result.t :=
  let nominalRate := default_to 12 nominalRate in
  let initialInvestment := default_to 10000 initialInvestment in
  let inflationRate := default_to 8 inflationRate in
  let firstWithdrawalValue := default_to 5000 firstWithdrawalValue in
  let investmentYears := default_to 40 investmentYears in
  let withdrawalYears := default_to 20 withdrawalYears in
  let monthlyNominalRate := nominalRate / 100 / 12 in
  let effectiveAnnualRate := (1 + monthlyNominalRate) ** 12 - 1 in
  let monthlyEffectiveRate := (1 + effectiveAnnualRate) ** (1 / 12) - 1 in
  let futureValueInitial :=
    initialInvestment * (1 + effectiveAnnualRate) ** investmentYears in
  let firstWithdrawal :=
    firstWithdrawalValue * (1 + inflationRate / 100) ** investmentYears in
  let monthlyInflationRate := (1 + inflationRate / 100) ** (1 / 12) - 1 in
  let realMonthlyRate :=
    (1 + monthlyEffectiveRate) / (1 + monthlyInflationRate) - 1 in
  match
    for_month fuel (PrimFloat.mul withdrawalYears 12)
      (withdrawal_step inflationRate monthlyEffectiveRate firstWithdrawal)
      1 0
  with
  | None => None
  | Some pvWithdrawals =>
      let targetFund := pvWithdrawals in
      let requiredFromPayments := targetFund - futureValueInitial in
      match
        for_month fuel (PrimFloat.mul investmentYears 12)
          (contribution_step inflationRate monthlyEffectiveRate
             investmentYears)
          1 0
      with
      | None => None
      | Some annuityFactor =>
          let firstPayment := requiredFromPayments / annuityFactor in
          Some {| Problem64Result.firstPayment := firstPayment;
                  Problem64Result.effectiveAnnualRate :=
                    effectiveAnnualRate * 100;
                  Problem64Result.monthlyEffectiveRate :=
                    monthlyEffectiveRate * 100;
                  Problem64Result.futureValueInitial := futureValueInitial;
                  Problem64Result.targetFund := targetFund;
                  Problem64Result.firstWithdrawal := firstWithdrawal |}
      end
  end.

End Library64.

End Binary64.

(** Case analysis on whether an optional argument is present and truthy. *)
Ltac case_given o :=
  unfold present; destruct (given o) as [? | ].

(** ** Evaluation lemmas for numbers *)

Section NumberFacts.

Local Open Scope js_scope.

Lemma add_fin (x y : R) : Fin x + Fin y = Fin (x + y)%R.
Proof. reflexivity. Qed.

Lemma sub_fin (x y : R) : Fin x - Fin y = Fin (x - y)%R.
Proof. reflexivity. Qed.

Lemma mul_fin (x y : R) : Fin x * Fin y = Fin (x * y)%R.
Proof. reflexivity. Qed.

Lemma div_fin (x y : R) : y <> 0%R -> Fin x / Fin y = Fin (x / y)%R.
Proof.
  intros Hy. unfold Number.div.
  destruct (Req_dec_T y 0) as [E | _]; [contradiction | reflexivity].
Qed.

Lemma div_zero_zero : Fin 0 / Fin 0 = NaN.
Proof.
  unfold Number.div.
  destruct (Req_dec_T 0 0) as [_ | N]; [reflexivity | now destruct N].
Qed.

Lemma div_pos_zero (x : R) : (0 < x)%R -> Fin x / Fin 0 = PInf.
Proof.
  intros Hx. unfold Number.div, Number.inf_like.
  destruct (Req_dec_T 0 0) as [_ | N]; [ | now destruct N].
  destruct (Req_dec_T x 0) as [E | _]; [lra | ].
  destruct (Rlt_dec 0 x) as [_ | N]; [reflexivity | contradiction].
Qed.

Lemma truthy_fin (x : R) : x <> 0%R -> Number.truthy (Fin x) = true.
Proof.
  intros Hx. unfold Number.truthy.
  destruct (Req_dec_T x 0) as [E | _]; [contradiction | reflexivity].
Qed.

Lemma given_fin (x : R) : x <> 0%R -> given (Some (Fin x)) = Some (Fin x).
Proof. intros Hx. unfold given. now rewrite truthy_fin. Qed.

Lemma given_truthy (x : number) :
  Number.truthy x = true -> given (Some x) = Some x.
Proof. intros H. unfold given. now rewrite H. Qed.

(** On a positive base, [**] is the real power function, whatever the
    finite exponent. *)
Lemma pow_pos_base (b e : R) :
  (0 < b)%R -> Fin b ** Fin e = Fin (Rpower b e).
Proof.
  intros Hb. unfold Number.pow, Number.real_power.
  destruct (Req_dec_T e 0) as [-> | He].
  - now rewrite Rpower_O.
  - destruct (Req_dec_T b 0) as [E | _]; [lra | ].
    destruct (Rlt_dec 0 b) as [_ | N]; [reflexivity | contradiction].
Qed.

Lemma Rpower_one_base (e : R) : Rpower 1 e = 1%R.
Proof. unfold Rpower. now rewrite ln_1, Rmult_0_r, exp_0. Qed.

(** [1 ** e] is [1] for a finite exponent and [NaN] otherwise. *)
Lemma pow_one_base (e : number) :
  Fin 1 ** e = Fin 1 \/ Fin 1 ** e = NaN.
Proof.
  destruct e as [e | | | ].
  - left. rewrite pow_pos_base by lra. now rewrite Rpower_one_base.
  - right. unfold Number.pow. rewrite Rabs_R1.
    destruct (Rlt_dec 1 1) as [L | _]; [lra | ].
    destruct (Req_dec_T 1 1) as [_ | N]; [reflexivity | now destruct N].
  - right. unfold Number.pow. rewrite Rabs_R1.
    destruct (Rlt_dec 1 1) as [L | _]; [lra | ].
    destruct (Req_dec_T 1 1) as [_ | N]; [reflexivity | now destruct N].
  - right. reflexivity.
Qed.

Lemma mul_nan_r (a : number) : a * NaN = NaN.
Proof. now destruct a. Qed.

(** [a * 0] is a zero or [NaN], and so is its quotient by zero. *)
Lemma mul_zero_div_zero (a : number) : a * Fin 0 / Fin 0 = NaN.
Proof.
  destruct a as [x | | | ]; simpl; try reflexivity.
  - rewrite Rmult_0_r. apply div_zero_zero.
  - destruct (Req_dec_T 0 0) as [_ | N]; [reflexivity | now destruct N].
  - destruct (Req_dec_T 0 0) as [_ | N]; [reflexivity | now destruct N].
Qed.

Lemma some_inj {A : Type} (x y : A) : Some x = Some y -> x = y.
Proof. intros H. now injection H. Qed.

(** [a == a] holds for every number but [NaN]. *)
Lemma equals_same (a : number) : Number.equals a a = true <-> a <> NaN.
Proof.
  destruct a as [x | | | ]; simpl.
  - destruct (Req_dec_T x x) as [_ | N]; [ | now destruct N].
    split; [discriminate | reflexivity].
  - split; [discriminate | reflexivity].
  - split; [discriminate | reflexivity].
  - split; [discriminate | intros N; now destruct N].
Qed.

End NumberFacts.

(** ** Loan amortizer *)

Section Loan.

Local Open Scope js_scope.

Lemma zero_monthly_rate : Fin 0 / 100 / 12 = Fin 0.
Proof.
  rewrite !div_fin by lra. f_equal. lra.
Qed.

(** At a positive rate and term the general formula is well defined: its
    denominator [(1 + monthlyRate) ** termMonths - 1] is positive and the
    payment is finite. *)
Lemma calculateLoan_positive_rate (L a y : R) :
  (0 < a)%R -> (0 < y)%R ->
  let m := (a / 100 / 12)%R in
  LoanResult.monthlyPayment (calculateLoan (Fin L) (Fin a) (Fin y))
  = Fin (L * (m * Rpower (1 + m) (y * 12))
         / (Rpower (1 + m) (y * 12) - 1)).
Proof.
  intros Ha Hy m.
  assert (Hm : (0 < m)%R).
  { unfold m. repeat (apply Rdiv_lt_0_compat; try lra). }
  assert (Hgrow : (1 < Rpower (1 + m) (y * 12))%R).
  { rewrite <- (Rpower_O (1 + m)) at 1 by lra.
    apply Rpower_lt; lra. }
  cbv [calculateLoan LoanResult.monthlyPayment].
  rewrite !div_fin by lra. fold m.
  rewrite add_fin, mul_fin.
  rewrite pow_pos_base by lra.
  rewrite !mul_fin, sub_fin.
  rewrite div_fin by lra.
  reflexivity.
Qed.

(** C1 (as stated, refuted): at [loanAmount = 1200], [annualRate = 0] and
    [termYears = 1 > 0] the amortizer does not return the linear payment
    [1200 / (1 * 12) = 100]; it evaluates the general formula, whose
    numerator and denominator are both zero, and returns [NaN]. *)
Lemma calculateLoan_zero_rate_counterexample :
  (0 < 1)%R
  /\ LoanResult.monthlyPayment (calculateLoan 1200 0 1) = NaN
  /\ LoanResult.monthlyPayment (calculateLoan 1200 0 1)
     <> Fin (1200 / (1 * 12))%R.
Proof.
  assert (E : LoanResult.monthlyPayment (calculateLoan 1200 0 1) = NaN).
  { cbv [calculateLoan LoanResult.monthlyPayment].
    rewrite zero_monthly_rate, add_fin, Rplus_0_r, mul_fin.
    rewrite pow_pos_base by lra. rewrite Rpower_one_base.
    rewrite !mul_fin, sub_fin.
    replace (1200 * (0 * 1))%R with 0%R by lra.
    replace (1 - 1)%R with 0%R by lra.
    apply div_zero_zero. }
  split; [lra | ]. split; [exact E | ].
  rewrite E. discriminate.
Qed.

(** C1 (amended): for every [loanAmount] and [termYears], a call with
    [annualRate = 0] is not special-cased: the general formula is
    evaluated, its quotient is [0 / 0] (or already involves [NaN]), and
    [monthlyPayment] is [NaN]. *)
Theorem calculateLoan_zero_rate_nan (loanAmount termYears : number) :
  LoanResult.monthlyPayment (calculateLoan loanAmount 0 termYears) = NaN.
Proof.
  cbv [calculateLoan LoanResult.monthlyPayment].
  rewrite zero_monthly_rate, add_fin, Rplus_0_r.
  destruct (pow_one_base (termYears * 12)) as [-> | ->].
  - rewrite mul_fin, sub_fin, Rmult_0_l.
    replace (1 - 1)%R with 0%R by lra.
    apply mul_zero_div_zero.
  - rewrite !mul_nan_r. reflexivity.
Qed.

(** The payment fields of a zero-rate loan are all [NaN]. *)
Lemma calculateLoan_zero_rate_fields (loanAmount termYears : number) :
  let res := calculateLoan loanAmount 0 termYears in
  LoanResult.monthlyPayment res = NaN
  /\ LoanResult.totalPayments res = NaN
  /\ LoanResult.totalInterest res = NaN.
Proof.
  cbv zeta.
  cbv [calculateLoan LoanResult.monthlyPayment LoanResult.totalPayments
       LoanResult.totalInterest].
  rewrite zero_monthly_rate, add_fin, Rplus_0_r.
  destruct (pow_one_base (termYears * 12)) as [-> | ->].
  - rewrite mul_fin, sub_fin, Rmult_0_l.
    replace (1 - 1)%R with 0%R by lra.
    rewrite mul_zero_div_zero. repeat split.
  - rewrite !mul_nan_r. repeat split.
Qed.

(** C7 (as stated, refuted): at [loanAmount = 1200], [annualRate = 0] and
    [termYears = 1] the payment fields are [NaN], so the comparisons
    [totalPayments == monthlyPayment * termMonths] and
    [totalInterest == totalPayments - loanAmount] are both false. *)
Lemma calculateLoan_relations_counterexample :
  let res := calculateLoan 1200 0 1 in
  LoanResult.totalPayments res = NaN
  /\ Number.equals (LoanResult.totalPayments res)
       (LoanResult.monthlyPayment res * LoanResult.termMonths res) = false
  /\ Number.equals (LoanResult.totalInterest res)
       (LoanResult.totalPayments res - 1200) = false.
Proof.
  cbv zeta.
  destruct (calculateLoan_zero_rate_fields 1200 1) as (_ & H2 & H3).
  cbv zeta in H2, H3. rewrite H2, H3. repeat split.
Qed.

(** C7 (amended): for every input triple the record stores
    [totalPayments] as [monthlyPayment * termMonths], [totalInterest] as
    [totalPayments - loanAmount] and [termMonths] as [termYears * 12], so
    each of the three [==] comparisons is true exactly when the stored
    value is not [NaN].  At [annualRate = 0] the payment fields are [NaN]
    for every [loanAmount] and [termYears]; at (250000, 8.5, 20) the
    three comparisons are true. *)
Theorem calculateLoan_relations (loanAmount annualRate termYears : number) :
  let res := calculateLoan loanAmount annualRate termYears in
  let zero := calculateLoan loanAmount 0 termYears in
  let sample := calculateLoan 250000 8.5 20 in
  (Number.equals (LoanResult.totalPayments res)
     (LoanResult.monthlyPayment res * LoanResult.termMonths res) = true
   <-> LoanResult.totalPayments res <> NaN)
  /\ (Number.equals (LoanResult.totalInterest res)
        (LoanResult.totalPayments res - loanAmount) = true
      <-> LoanResult.totalInterest res <> NaN)
  /\ (Number.equals (LoanResult.termMonths res) (termYears * 12) = true
      <-> LoanResult.termMonths res <> NaN)
  /\ LoanResult.totalPayments zero = NaN
  /\ LoanResult.totalInterest zero = NaN
  /\ Number.equals (LoanResult.totalPayments sample)
       (LoanResult.monthlyPayment sample * LoanResult.termMonths sample)
     = true
  /\ Number.equals (LoanResult.totalInterest sample)
       (LoanResult.totalPayments sample - 250000) = true
  /\ Number.equals (LoanResult.termMonths sample) (Fin 20 * 12) = true.
Proof.
  cbv zeta.
  split; [exact (equals_same (LoanResult.totalPayments
                   (calculateLoan loanAmount annualRate termYears))) | ].
  split; [exact (equals_same (LoanResult.totalInterest
                   (calculateLoan loanAmount annualRate termYears))) | ].
  split; [exact (equals_same (LoanResult.termMonths
                   (calculateLoan loanAmount annualRate termYears))) | ].
  destruct (calculateLoan_zero_rate_fields loanAmount termYears)
    as (_ & H2 & H3).
  split; [exact H2 | ]. split; [exact H3 | ].
  assert (HM := calculateLoan_positive_rate 250000 8.5 20).
  cbv zeta in HM.
  assert (Hmp : exists M,
             LoanResult.monthlyPayment (calculateLoan 250000 8.5 20) = Fin M).
  { eexists. apply HM; lra. }
  destruct Hmp as (M & Hmp).
  assert (Htm : LoanResult.termMonths (calculateLoan 250000 8.5 20)
                = Fin (20 * 12)) by reflexivity.
  assert (Htp : LoanResult.totalPayments (calculateLoan 250000 8.5 20)
                = Fin (M * (20 * 12))).
  { change (LoanResult.totalPayments (calculateLoan 250000 8.5 20))
      with (LoanResult.monthlyPayment (calculateLoan 250000 8.5 20)
            * LoanResult.termMonths (calculateLoan 250000 8.5 20)).
    now rewrite Hmp, Htm. }
  assert (Hti : LoanResult.totalInterest (calculateLoan 250000 8.5 20)
                = Fin (M * (20 * 12) - 250000)).
  { change (LoanResult.totalInterest (calculateLoan 250000 8.5 20))
      with (LoanResult.totalPayments (calculateLoan 250000 8.5 20)
            - Fin 250000).
    now rewrite Htp. }
  split.
  { apply (proj2 (equals_same (LoanResult.totalPayments
                    (calculateLoan 250000 8.5 20)))).
    rewrite Htp. discriminate. }
  split.
  { apply (proj2 (equals_same (LoanResult.totalInterest
                    (calculateLoan 250000 8.5 20)))).
    rewrite Hti. discriminate. }
  apply (proj2 (equals_same (LoanResult.termMonths
                  (calculateLoan 250000 8.5 20)))).
  rewrite Htm. discriminate.
Qed.

End Loan.

(** ** Error conditions of the multi-branch solvers *)

Section Errors.

Local Open Scope js_scope.

(** C8: the compound-interest solver throws "Insufficient parameters for
    calculation" exactly when none of its four branches has its three
    inputs present and truthy, and returns a result otherwise; with only
    [time = 5] and [compoundingFreq = 12] supplied it throws. *)
Theorem calculateCompoundInterest_insufficient
    (principal rate time compoundingFreq futureValue : optional) :
  let some_branch :=
    (present principal && present rate && present time
     || present futureValue && present rate && present time
     || present principal && present futureValue && present time
     || present principal && present rate && present futureValue)%bool in
  (calculateCompoundInterest principal rate time compoundingFreq futureValue
     = Throw insufficient_parameters
   <-> some_branch = false)
  /\ (some_branch = true
      <-> exists res,
          calculateCompoundInterest
            principal rate time compoundingFreq futureValue = Return res)
  /\ calculateCompoundInterest None None (Some (Fin 5)) (Some (Fin 12)) None
     = Throw insufficient_parameters.
Proof.
  cbv zeta. unfold calculateCompoundInterest.
  split; [ | split; [ | reflexivity]].
  - case_given principal; case_given rate; case_given time;
      case_given futureValue; simpl; split; intros H;
      first [discriminate H | reflexivity].
  - case_given principal; case_given rate; case_given time;
      case_given futureValue; simpl; split; intros H;
      first [discriminate H | eexists; reflexivity
            | destruct H as [? H]; discriminate H].
Qed.

(** C9: the ordinary-annuity solver throws "Insufficient parameters for
    annuity calculation" if and only if [rate] is absent or falsy, or
    [periods] is absent or falsy, or none of [payment], [presentValue],
    [futureValue] is present and truthy; on every other input it returns
    a result.  In particular [rate = 0] and [periods = 0] throw. *)
Theorem calculateOrdinaryAnnuity_insufficient
    (payment rate periods presentValue futureValue : optional) :
  let missing :=
    present rate = false \/ present periods = false
    \/ (present payment = false /\ present presentValue = false
        /\ present futureValue = false) in
  (calculateOrdinaryAnnuity payment rate periods presentValue futureValue
     = Throw insufficient_annuity_parameters
   <-> missing)
  /\ (~ missing
      <-> exists res,
          calculateOrdinaryAnnuity
            payment rate periods presentValue futureValue = Return res)
  /\ calculateOrdinaryAnnuity
       payment (Some (Fin 0)) periods presentValue futureValue
     = Throw insufficient_annuity_parameters
  /\ calculateOrdinaryAnnuity
       payment rate (Some (Fin 0)) presentValue futureValue
     = Throw insufficient_annuity_parameters.
Proof.
  cbv zeta.
  assert (Z0 : given (Some (Fin 0)) = None).
  { unfold given, Number.truthy.
    destruct (Req_dec_T 0 0) as [_ | N]; [reflexivity | now destruct N]. }
  unfold calculateOrdinaryAnnuity.
  split; [ | split; [ | split]].
  - case_given payment; case_given rate; case_given periods;
      case_given presentValue; case_given futureValue; simpl;
      split; intros H;
      solve [ discriminate H | reflexivity | tauto
            | intuition discriminate ].
  - case_given payment; case_given rate; case_given periods;
      case_given presentValue; case_given futureValue; simpl;
      split; intros H;
      solve [ eexists; reflexivity
            | destruct H as [? H]; discriminate H
            | intuition discriminate
            | exfalso; apply H; tauto ].
  - rewrite Z0. now destruct (given payment), (given presentValue),
      (given futureValue), (given periods).
  - rewrite Z0. now destruct (given payment), (given presentValue),
      (given futureValue), (given rate).
Qed.

End Errors.

(** ** Simple interest *)

Section SimpleInterest.

Local Open Scope js_scope.

(** C4: when all four arguments are supplied and truthy, the result is the
    one of the (principal, rate, time) branch, and it is the same whatever
    is passed as [futureValue]; [calculateSimpleInterest(1000, 10, 5, 2000)]
    returns [interest = 500] and [futureValue = 1500]. *)
Theorem calculateSimpleInterest_first_match
    (principal rate time futureValue : number) :
  Number.truthy principal = true ->
  Number.truthy rate = true ->
  Number.truthy time = true ->
  Number.truthy futureValue = true ->
  calculateSimpleInterest
    (Some principal) (Some rate) (Some time) (Some futureValue)
  = Return {| SimpleInterestResult.principal := principal;
              SimpleInterestResult.rate := rate;
              SimpleInterestResult.time := time;
              SimpleInterestResult.interest :=
                principal * (rate / 100) * time;
              SimpleInterestResult.futureValue :=
                principal + principal * (rate / 100) * time |}
  /\ (forall other : optional,
        calculateSimpleInterest (Some principal) (Some rate) (Some time) other
        = calculateSimpleInterest
            (Some principal) (Some rate) (Some time) (Some futureValue))
  /\ calculateSimpleInterest
       (Some (Fin 1000)) (Some (Fin 10)) (Some (Fin 5)) (Some (Fin 2000))
     = Return {| SimpleInterestResult.principal := 1000;
                 SimpleInterestResult.rate := 10;
                 SimpleInterestResult.time := 5;
                 SimpleInterestResult.interest := 500;
                 SimpleInterestResult.futureValue := 1500 |}.
Proof.
  intros Hp Hr Ht _.
  unfold calculateSimpleInterest.
  rewrite (given_truthy _ Hp), (given_truthy _ Hr), (given_truthy _ Ht).
  split; [reflexivity | ]. split; [reflexivity | ].
  rewrite !given_fin by lra.
  rewrite div_fin by lra. rewrite !mul_fin, add_fin.
  do 2 f_equal; f_equal; lra.
Qed.

(** The first-match rule at [calculateSimpleInterest(1000, 10, 5, 2000)]. *)
Lemma calculateSimpleInterest_first_match_witness :
  calculateSimpleInterest
    (Some (Fin 1000)) (Some (Fin 10)) (Some (Fin 5)) (Some (Fin 2000))
  = calculateSimpleInterest
      (Some (Fin 1000)) (Some (Fin 10)) (Some (Fin 5)) None.
Proof.
  symmetry.
  apply (calculateSimpleInterest_first_match 1000 10 5 2000);
    apply truthy_fin; lra.
Defined.




(** In binary64 the sum is not the future value even when every field is
    finite: [calculateSimpleInterest(1e20, undefined, 1, 1)] returns
    [principal = 1e20], [interest = 1 - 1e20 = -1e20] and
    [futureValue = 1], and [principal + interest] is [0]. *)
Lemma calculateSimpleInterest_sum_rounding :
  Binary64.calculateSimpleInterest
    (Some 1e20%float) None (Some 1%float) (Some 1%float)
  = Return
      {| Binary64.SimpleInterestResult.principal := Binary64.Val 1e20;
         Binary64.SimpleInterestResult.rate := Binary64.Val (-100);
         Binary64.SimpleInterestResult.time := Binary64.Val 1;
         Binary64.SimpleInterestResult.interest := Binary64.Val (-1e20);
         Binary64.SimpleInterestResult.futureValue := Binary64.Val 1 |}
  /\ Binary64.add (Binary64.Val 1e20) (Binary64.Val (-1e20))
     = Binary64.Val 0.
Proof. split; vm_compute; reflexivity. Qed.

End SimpleInterest.

(** ** Round trips *)

Section RoundTrips.

Local Open Scope js_scope.







(** In binary64 the bounded round trip is met where [**] is determined:
    over one year with annual compounding, [1000] at [5] percent grows to
    a future value from which a principal within [1e-6] of [1000] is
    recovered. *)
Lemma calculateCompoundInterest_round_trip_one_year :
  exists forward fv backward p,
    Binary64.calculateCompoundInterest
      (Some 1000%float) (Some 5%float) (Some 1%float) (Some 1%float) None
    = Return forward
    /\ Binary64.CompoundInterestResult.futureValue forward = Binary64.Val fv
    /\ Binary64.calculateCompoundInterest
         None (Some 5%float) (Some 1%float) (Some 1%float) (Some fv)
       = Return backward
    /\ Binary64.CompoundInterestResult.principal backward = Binary64.Val p
    /\ PrimFloat.leb (PrimFloat.abs (p - 1000))%float
         (1e-6 * PrimFloat.abs 1000)%float = true.
Proof.
  eexists. eexists. eexists. eexists.
  split; [vm_compute; reflexivity | ].
  split; [vm_compute; reflexivity | ].
  split; [vm_compute; reflexivity | ].
  split; vm_compute; reflexivity.
Qed.




(** In binary64 the bounded round trip is met where [**] is determined:
    at [r = 10] over one year the recovered rate is within [1e-9] of
    [10]. *)
Lemma convert_simple_effective_round_trip_one_year :
  exists ea s,
    Binary64.InterestRateConversion.effectiveAnnual
      (Binary64.convertFromSimple 10%float 1%float (Some 1%float))
    = Binary64.Val ea
    /\ Binary64.InterestRateConversion.simple
         (Binary64.convertFromEffectiveAnnual ea (Some 1%float)
            (Some 1%float))
       = Binary64.Val s
    /\ PrimFloat.leb (PrimFloat.abs (s - 10))%float
         (1e-9 * PrimFloat.abs 10)%float = true.
Proof.
  eexists. eexists.
  split; [vm_compute; reflexivity | ].
  split; vm_compute; reflexivity.
Qed.

End RoundTrips.

(** ** The summation loops of the Problem 6.4 solver *)

Section Loops.

Local Open Scope js_scope.

Variable body : number -> number -> number.

Lemma for_month_step (fuel : nat) (bound month acc : number) :
  for_month (S fuel) bound body month acc
  = if Number.leb month bound
    then for_month fuel bound body (month + 1) (body month acc)
    else Some acc.
Proof. reflexivity. Qed.

(** More fuel does not change a result. *)
Lemma for_month_fuel_mono (fuel fuel' : nat) (bound month acc v : number) :
  (fuel <= fuel')%nat ->
  for_month fuel bound body month acc = Some v ->
  for_month fuel' bound body month acc = Some v.
Proof.
  revert fuel' month acc.
  induction fuel as [ | fuel IH]; intros fuel' month acc Hle H.
  - discriminate H.
  - destruct fuel' as [ | fuel']; [lia | ].
    simpl in *. destruct (Number.leb month bound).
    + apply IH; [lia | exact H].
    + exact H.
Qed.

(** A loop whose bound is finite exits after at most [n] iterations when
    the counter starts within [n] of the bound. *)
Lemma for_month_fin_terminates (n : nat) :
  forall (b x : R) (acc : number),
    (b - x < INR n)%R ->
    exists v, for_month (S n) (Fin b) body (Fin x) acc = Some v.
Proof.
  induction n as [ | n IH]; intros b x acc Hlt.
  - simpl in *. destruct (Rle_dec x b) as [L | _]; [lra | ].
    now exists acc.
  - rewrite S_INR in Hlt. rewrite for_month_step.
    destruct (Number.leb (Fin x) (Fin b)).
    + rewrite add_fin. apply IH. lra.
    + now exists acc.
Qed.

(** The loop terminates from a finite counter unless its bound is
    [Infinity]. *)
Lemma for_month_terminates (bound : number) (x : R) (acc : number) :
  bound <> PInf ->
  exists fuel v, for_month fuel bound body (Fin x) acc = Some v.
Proof.
  intros Hb. destruct bound as [b | | | ].
  - destruct (archimed (b - x)) as [Hup _].
    set (n := Z.to_nat (up (b - x))).
    assert (Hn : (b - x < INR n)%R).
    { unfold n. destruct (Z_lt_le_dec (up (b - x)) 0) as [Hneg | Hpos].
      - apply IZR_lt in Hneg.
        pose proof (pos_INR (Z.to_nat (up (b - x)))). lra.
      - rewrite INR_IZR_INZ, Z2Nat.id by exact Hpos. lra. }
    exists (S n). now apply for_month_fin_terminates.
  - now destruct Hb.
  - exists 1%nat, acc. reflexivity.
  - exists 1%nat, acc. reflexivity.
Qed.

(** Invariant rule for a loop over the months [1 .. n]. *)
Lemma for_month_invariant (Inv : nat -> number -> Prop) (n : nat) :
  (forall (k : nat) (acc : number),
      (1 <= k <= n)%nat -> Inv (pred k) acc ->
      Inv k (body (Fin (INR k)) acc)) ->
  forall (j k : nat) (acc : number) (fuel : nat),
    (k + j = n)%nat -> Inv k acc -> (j < fuel)%nat ->
    exists v,
      for_month fuel (Fin (INR n)) body (Fin (INR (S k))) acc = Some v
      /\ Inv n v.
Proof.
  intros Hstep. induction j as [ | j IH]; intros k acc fuel Hk Hinv Hfuel.
  - destruct fuel as [ | fuel]; [lia | ]. rewrite for_month_step.
    unfold Number.leb.
    destruct (Rle_dec (INR (S k)) (INR n)) as [L | _].
    + apply INR_le in L. lia.
    + exists acc. split; [reflexivity | ].
      now replace n with k by lia.
  - destruct fuel as [ | fuel]; [lia | ]. rewrite for_month_step.
    unfold Number.leb.
    destruct (Rle_dec (INR (S k)) (INR n)) as [_ | N].
    + rewrite add_fin, <- (S_INR (S k)).
      apply IH; [lia | | lia].
      apply Hstep; [lia | exact Hinv].
    + exfalso. apply N. apply le_INR. lia.
Qed.

End Loops.

(** ** Problem 6.4 solver *)

Section Problem64.

Local Open Scope js_scope.

(** Compounding a monthly rate to a year and taking the twelfth root gives
    the monthly rate back. *)
Lemma monthly_effective_rate (nominalRate : R) :
  (0 < 1 + nominalRate / 1200)%R ->
  (1 + ((1 + Fin nominalRate / 100 / 12) ** 12 - 1)) ** (1 / 12) - 1
  = Fin (nominalRate / 1200).
Proof.
  intros Hpos.
  set (b := (1 + nominalRate / 100 / 12)%R).
  assert (Hb : (0 < b)%R) by (unfold b; lra).
  rewrite !div_fin by lra. rewrite add_fin. fold b.
  rewrite pow_pos_base by exact Hb.
  rewrite sub_fin, add_fin.
  replace (1 + (Rpower b 12 - 1))%R with (Rpower b 12) by lra.
  rewrite pow_pos_base by apply exp_pos.
  rewrite Rpower_mult.
  replace (12 * (1 / 12))%R with 1%R by lra.
  rewrite Rpower_1 by exact Hb.
  rewrite sub_fin. f_equal. unfold b. lra.
Qed.

Lemma times_twelve_not_infinite (years : number) :
  years <> PInf -> years * 12 <> PInf.
Proof.
  intros H. destruct years as [y | | | ]; simpl; try discriminate.
  - now destruct H.
  - destruct (Req_dec_T 12 0) as [E | _]; [discriminate | ].
    unfold Number.inf_like.
    destruct (Rlt_dec 0 _) as [L | _]; [lra | discriminate].
Qed.

(** The two loops exit, and a result is returned, unless a horizon is
    [Infinity]. *)
Lemma problem64_funding_returns
    (inflationRate investmentYears withdrawalYears : number)
    (effectiveAnnualRate monthlyEffectiveRate : number)
    (futureValueInitial firstWithdrawal : number)
    (monthlyInflationRate realMonthlyRate : number) :
  investmentYears <> PInf -> withdrawalYears <> PInf ->
  exists fuel res,
    problem64_funding fuel inflationRate investmentYears withdrawalYears
      effectiveAnnualRate monthlyEffectiveRate futureValueInitial
      firstWithdrawal monthlyInflationRate realMonthlyRate = Some res.
Proof.
  intros Hi Hw.
  destruct (for_month_terminates
              (withdrawal_step inflationRate monthlyEffectiveRate
                 firstWithdrawal)
              (withdrawalYears * 12) 1 0
              (times_twelve_not_infinite _ Hw)) as (f1 & v1 & H1).
  destruct (for_month_terminates
              (contribution_step inflationRate monthlyEffectiveRate
                 investmentYears)
              (investmentYears * 12) 1 0
              (times_twelve_not_infinite _ Hi)) as (f2 & v2 & H2).
  exists (Nat.max f1 f2). unfold problem64_funding.
  rewrite (for_month_fuel_mono _ f1 _ _ _ _ _ (Nat.le_max_l f1 f2) H1).
  rewrite (for_month_fuel_mono _ f2 _ _ _ _ _ (Nat.le_max_r f1 f2) H2).
  eexists. reflexivity.
Qed.

Lemma Rpower_literal (b : R) (n : nat) :
  (0 < b)%R -> Rpower b (IZR (Z.of_nat n)) = (b ^ n)%R.
Proof.
  intros Hb. rewrite <- INR_IZR_INZ. now apply Rpower_pow.
Qed.

Lemma Rpower_ge_1 (b e : R) :
  (1 <= b)%R -> (0 <= e)%R -> (1 <= Rpower b e)%R.
Proof.
  intros Hb He. rewrite <- (Rpower_O b) by lra.
  now apply Rle_Rpower.
Qed.

(** [yearNumber - 1] is not negative from the first month on. *)
Lemma year_number_pred_nonneg (k : nat) :
  (1 <= k)%nat -> (0 <= IZR (Zceil (INR k / 12)) - 1)%R.
Proof.
  intros Hk.
  assert (Hpos : (0 < INR k / 12)%R).
  { apply Rdiv_lt_0_compat; [ | lra]. apply lt_0_INR. lia. }
  destruct (Zceil_bound (INR k / 12)) as [_ Hle].
  assert (Hz : (0 < Zceil (INR k / 12))%Z) by (apply lt_IZR; lra).
  assert (H1 : (1 <= Zceil (INR k / 12))%Z) by lia.
  apply IZR_le in H1. lra.
Qed.

Lemma withdrawal_step_fin (i m W a : R) (k : nat) :
  (0 <= i)%R -> (0 <= m)%R ->
  withdrawal_step (Fin i) (Fin m) (Fin W) (Fin (INR k)) (Fin a)
  = Fin (a + W * Rpower (1 + i / 100) (IZR (Zceil (INR k / 12)) - 1)
             / Rpower (1 + m) (INR k)).
Proof.
  intros Hi Hm. unfold withdrawal_step.
  rewrite !div_fin by lra. cbv [Number.ceil].
  rewrite sub_fin, !add_fin.
  rewrite !pow_pos_base by lra.
  rewrite mul_fin.
  assert (Hp : (0 < Rpower (1 + m) (INR k))%R) by apply exp_pos.
  rewrite div_fin by lra.
  reflexivity.
Qed.

Lemma contribution_step_fin (i m y a : R) (k : nat) :
  (0 <= i)%R -> (0 <= m)%R ->
  contribution_step (Fin i) (Fin m) (Fin y) (Fin (INR k)) (Fin a)
  = Fin (a + Rpower (1 + i / 100) (IZR (Zceil (INR k / 12)) - 1)
             * Rpower (1 + m) (y * 12 - INR k)).
Proof.
  intros Hi Hm. unfold contribution_step.
  rewrite !div_fin by lra. cbv [Number.ceil].
  rewrite mul_fin, !sub_fin, !add_fin.
  rewrite !pow_pos_base by lra.
  reflexivity.
Qed.

(** The first loop over [n] months returns a finite sum, at least [n]
    times the smallest discounted withdrawal. *)
Lemma withdrawals_lower_bound (i m W : R) (n fuel : nat) :
  (0 <= i)%R -> (0 <= m)%R -> (0 <= W)%R -> (n < fuel)%nat ->
  exists T,
    for_month fuel (Fin (INR n)) (withdrawal_step (Fin i) (Fin m) (Fin W))
      1 0 = Some (Fin T)
    /\ (INR n * (W / Rpower (1 + m) (INR n)) <= T)%R.
Proof.
  intros Hi Hm HW Hfuel.
  set (c := (W / Rpower (1 + m) (INR n))%R).
  assert (Hc : (0 <= c)%R).
  { unfold c, Rdiv. apply Rmult_le_pos; [exact HW | ].
    apply Rlt_le, Rinv_0_lt_compat, exp_pos. }
  destruct (for_month_invariant
              (withdrawal_step (Fin i) (Fin m) (Fin W))
              (fun k acc => exists a, acc = Fin a /\ (INR k * c <= a)%R) n)
    with (j := n) (k := 0%nat) (acc := Fin 0) (fuel := fuel)
    as (v & Hv & (T & -> & HT)).
  - intros k acc Hk (a & -> & Ha).
    rewrite withdrawal_step_fin by assumption.
    eexists. split; [reflexivity | ].
    assert (Hk' : INR k = (INR (pred k) + 1)%R).
    { rewrite <- S_INR. f_equal. lia. }
    assert (Hterm : (c <= W * Rpower (1 + i / 100)
                               (IZR (Zceil (INR k / 12)) - 1)
                          / Rpower (1 + m) (INR k))%R).
    { unfold c, Rdiv.
      assert (Hg : (1 <= Rpower (1 + i / 100)
                            (IZR (Zceil (INR k / 12)) - 1))%R).
      { apply Rpower_ge_1; [lra | apply year_number_pred_nonneg; lia]. }
      assert (Hd : (/ Rpower (1 + m) (INR n)
                    <= / Rpower (1 + m) (INR k))%R).
      { apply Rinv_le_contravar; [apply exp_pos | ].
        apply Rle_Rpower; [lra | apply le_INR; lia]. }
      assert (Hdn : (0 < / Rpower (1 + m) (INR n))%R)
        by (apply Rinv_0_lt_compat, exp_pos).
      rewrite Rmult_assoc.
      apply Rmult_le_compat_l; [exact HW | ].
      nra. }
    replace (INR k * c)%R with (INR (pred k) * c + c)%R
      by (rewrite Hk'; ring).
    lra.
  - lia.
  - exists 0%R. split; [reflexivity | simpl; lra].
  - exact Hfuel.
  - exists T. split; [exact Hv | exact HT].
Qed.

(** The second loop over [n = investmentYears * 12] months returns a
    finite sum of terms that are each at least [1]. *)
Lemma contributions_lower_bound (i m y : R) (n fuel : nat) :
  (0 <= i)%R -> (0 <= m)%R -> (y * 12)%R = INR n -> (n < fuel)%nat ->
  exists A,
    for_month fuel (Fin (INR n))
      (contribution_step (Fin i) (Fin m) (Fin y)) 1 0 = Some (Fin A)
    /\ (INR n <= A)%R.
Proof.
  intros Hi Hm Hy Hfuel.
  destruct (for_month_invariant
              (contribution_step (Fin i) (Fin m) (Fin y))
              (fun k acc => exists a, acc = Fin a /\ (INR k <= a)%R) n)
    with (j := n) (k := 0%nat) (acc := Fin 0) (fuel := fuel)
    as (v & Hv & (A & -> & HA)).
  - intros k acc Hk (a & -> & Ha).
    rewrite contribution_step_fin by assumption.
    eexists. split; [reflexivity | ].
    assert (Hk' : INR k = (INR (pred k) + 1)%R).
    { rewrite <- S_INR. f_equal. lia. }
    assert (Hg : (1 <= Rpower (1 + i / 100)
                          (IZR (Zceil (INR k / 12)) - 1))%R).
    { apply Rpower_ge_1; [lra | apply year_number_pred_nonneg; lia]. }
    assert (Hh : (1 <= Rpower (1 + m) (y * 12 - INR k))%R).
    { apply Rpower_ge_1; [lra | ].
      rewrite Hy. assert (INR k <= INR n)%R by (apply le_INR; lia). lra. }
    assert (Hprod : (1 <= Rpower (1 + i / 100)
                             (IZR (Zceil (INR k / 12)) - 1)
                           * Rpower (1 + m) (y * 12 - INR k))%R) by nra.
    lra.
  - lia.
  - exists 0%R. split; [reflexivity | simpl; lra].
  - exact Hfuel.
  - exists A. split; [exact Hv | exact HA].
Qed.

Lemma reachable_horizon_not_infinite (o : optional) (d : R) :
  reachable_horizon o -> default_to (Fin d) o <> PInf.
Proof.
  destruct o as [[y | | | ] | ]; simpl; intros H;
    try discriminate; contradiction.
Qed.




(** C3: with all six arguments defaulted (nominalRate 12, initialInvestment
    10000, inflationRate 8, firstWithdrawalValue 5000, investmentYears 40,
    withdrawalYears 20) the solver returns, as soon as the fuel covers the
    480 iterations of the longer loop, a result whose [effectiveAnnualRate]
    is within [0.00001] of [12.6825] and whose [firstPayment] is finite and
    strictly positive. *)
Theorem solveProblem64_defaults (fuel : nat) :
  (480 < fuel)%nat ->
  exists res rate payment,
    solveProblem64 fuel None None None None None None = Some res
    /\ Problem64Result.effectiveAnnualRate res = Fin rate
    /\ (Rabs (rate - 12.6825) <= 1 / 100000)%R
    /\ Problem64Result.firstPayment res = Fin payment
    /\ (0 < payment)%R.
Proof.
  intros Hfuel.
  cbv [solveProblem64 default_to].
  rewrite (monthly_effective_rate 12) by lra.
  assert (Hear : (1 + Fin 12 / 100 / 12) ** 12 - 1
                 = Fin ((101 / 100) ^ 12 - 1)).
  { rewrite !div_fin by lra. rewrite add_fin.
    rewrite pow_pos_base by lra. rewrite sub_fin. do 2 f_equal.
    replace (1 + 12 / 100 / 12)%R with (101 / 100)%R by lra.
    apply (Rpower_literal (101 / 100) 12). lra. }
  rewrite Hear. clear Hear.
  assert (Hfvi : Fin 10000 * (1 + Fin ((101 / 100) ^ 12 - 1)) ** 40
                 = Fin (10000 * (101 / 100) ^ 480)).
  { rewrite add_fin.
    replace (1 + ((101 / 100) ^ 12 - 1))%R with ((101 / 100) ^ 12)%R by lra.
    rewrite pow_pos_base by (apply pow_lt; lra).
    rewrite mul_fin. do 2 f_equal.
    rewrite (Rpower_literal _ 40) by (apply pow_lt; lra).
    rewrite <- pow_mult. reflexivity. }
  rewrite Hfvi. clear Hfvi.
  assert (Hfw : Fin 5000 * (1 + Fin 8 / 100) ** 40
                = Fin (5000 * (108 / 100) ^ 40)).
  { rewrite div_fin by lra. rewrite add_fin.
    rewrite pow_pos_base by lra. rewrite mul_fin. do 2 f_equal.
    replace (1 + 8 / 100)%R with (108 / 100)%R by lra.
    apply (Rpower_literal (108 / 100) 40). lra. }
  rewrite Hfw. clear Hfw.
  unfold problem64_funding.
  rewrite !mul_fin.
  replace (20 * 12)%R with (INR 240) by (rewrite INR_IZR_INZ; simpl; lra).
  replace (40 * 12)%R with (INR 480) by (rewrite INR_IZR_INZ; simpl; lra).
  destruct (withdrawals_lower_bound 8 (12 / 1200) (5000 * (108 / 100) ^ 40)
              240 fuel) as (T & -> & HT);
    [lra | lra | | lia | ].
  { apply Rmult_le_pos; [lra | apply pow_le; lra]. }
  destruct (contributions_lower_bound 8 (12 / 1200) 40 480 fuel)
    as (A & -> & HA);
    [lra | lra | rewrite INR_IZR_INZ; simpl; lra | exact Hfuel | ].
  assert (HA' : (480 <= A)%R).
  { rewrite INR_IZR_INZ in HA. simpl in HA. exact HA. }
  assert (HT' : (10000 * (101 / 100) ^ 480 < T)%R).
  { rewrite Rpower_pow in HT by lra.
    replace (1 + 12 / 1200)%R with (101 / 100)%R in HT by lra.
    rewrite INR_IZR_INZ in HT. simpl Z.of_nat in HT.
    eapply Rlt_le_trans; [ | exact HT]. lra. }
  rewrite sub_fin, div_fin by lra.
  eexists. eexists. eexists.
  split; [reflexivity | ].
  cbv [Problem64Result.effectiveAnnualRate Problem64Result.firstPayment].
  split; [reflexivity | ].
  split; [apply Rabs_le; split; lra | ].
  split; [reflexivity | ].
  apply Rdiv_lt_0_compat; lra.
Qed.

(** The default scenario with fuel for 481 loop tests. *)
Lemma solveProblem64_defaults_witness :
  exists res rate payment,
    solveProblem64 481 None None None None None None = Some res
    /\ Problem64Result.effectiveAnnualRate res = Fin rate
    /\ (Rabs (rate - 12.6825) <= 1 / 100000)%R
    /\ Problem64Result.firstPayment res = Fin payment
    /\ (0 < payment)%R.
Proof.
  apply (solveProblem64_defaults 481). lia.
Defined.

End Problem64.

(** ** Degenerate arguments of the rate conversions *)

Section ConversionEdges.

Local Open Scope js_scope.

Lemma log_pos (x : R) : (0 < x)%R -> Number.log (Fin x) = Fin (ln x).
Proof.
  intros Hx. unfold Number.log.
  destruct (Rlt_dec x 0) as [L | _]; [lra | ].
  destruct (Req_dec_T x 0) as [E | _]; [lra | reflexivity].
Qed.

Lemma pow_nan_exponent_inf (base : number) :
  base = Fin 1 \/ base = NaN -> base ** PInf = NaN.
Proof.
  intros [-> | ->]; [ | reflexivity].
  destruct (pow_one_base PInf) as [H | H]; [ | exact H].
  unfold Number.pow in *. rewrite Rabs_R1 in *.
  destruct (Rlt_dec 1 1) as [L | _]; [lra | ].
  destruct (Req_dec_T 1 1) as [_ | N]; [reflexivity | now destruct N].
Qed.

(** [1 + r * 0] is [1] for a finite [r] and [NaN] otherwise. *)
Lemma one_plus_times_zero (r : number) :
  1 + r * Fin 0 = Fin 1 \/ 1 + r * Fin 0 = NaN.
Proof.
  destruct r as [x | | | ]; simpl.
  - left. f_equal. lra.
  - right. destruct (Req_dec_T 0 0) as [_ | N]; [reflexivity | now destruct N].
  - right. destruct (Req_dec_T 0 0) as [_ | N]; [reflexivity | now destruct N].
  - now right.
Qed.

(** [1 / (m * 0)] is [Infinity] for a finite [m] and [NaN] otherwise. *)
Lemma one_over_times_zero (m : number) :
  1 / (m * Fin 0) = PInf \/ 1 / (m * Fin 0) = NaN.
Proof.
  destruct m as [x | | | ]; simpl.
  - left. rewrite Rmult_0_r. apply div_pos_zero. lra.
  - right. destruct (Req_dec_T 0 0) as [_ | N]; [reflexivity | now destruct N].
  - right. destruct (Req_dec_T 0 0) as [_ | N]; [reflexivity | now destruct N].
  - now right.
Qed.

Lemma pow_degenerate (base exponent : number) :
  base = Fin 1 \/ base = NaN ->
  exponent = PInf \/ exponent = NaN ->
  base ** exponent = NaN.
Proof.
  intros Hb [-> | ->].
  - now apply pow_nan_exponent_inf.
  - reflexivity.
Qed.

(** X6: with [timePeriod = 0], [convertFromSimple] traps nothing: whatever
    the rate and the frequency, the four derived fields are [NaN] and only
    [simple] carries a value (the input). *)
Theorem convertFromSimple_zero_time
    (simpleRate : number) (compoundingFreq : optional) :
  let res := convertFromSimple simpleRate (Fin 0) compoundingFreq in
  InterestRateConversion.simple res = simpleRate
  /\ InterestRateConversion.effectiveAnnual res = NaN
  /\ InterestRateConversion.nominal res = NaN
  /\ InterestRateConversion.effectivePeriodic res = NaN
  /\ InterestRateConversion.forceOfInterest res = NaN.
Proof.
  cbv zeta.
  cbv [convertFromSimple InterestRateConversion.simple
       InterestRateConversion.effectiveAnnual InterestRateConversion.nominal
       InterestRateConversion.effectivePeriodic
       InterestRateConversion.forceOfInterest].
  set (m := default_to 1 compoundingFreq).
  pose proof (one_plus_times_zero (simpleRate / 100)) as Hbase.
  pose proof (one_over_times_zero m) as Hexp.
  assert (Hinf : Fin 1 / Fin 0 = PInf) by (apply div_pos_zero; lra).
  split; [reflexivity | ].
  split; [ | split; [ | split]].
  - rewrite Hinf, (pow_degenerate _ PInf Hbase) by now left.
    reflexivity.
  - rewrite (pow_degenerate _ _ Hbase Hexp).
    change (NaN - 1) with NaN. now rewrite mul_nan_r.
  - rewrite (pow_degenerate _ _ Hbase Hexp). reflexivity.
  - destruct Hbase as [-> | ->]; [ | reflexivity].
    rewrite log_pos by lra. rewrite ln_1, div_zero_zero. reflexivity.
Qed.

(** Anything raised to the power zero is one. *)
Lemma pow_zero_exponent (base : number) : base ** Fin 0 = Fin 1.
Proof.
  unfold Number.pow.
  destruct (Req_dec_T 0 0) as [_ | N]; [reflexivity | now destruct N].
Qed.

(** A quotient by zero is never finite. *)
Lemma div_zero_cases (a : number) :
  a / Fin 0 = NaN \/ a / Fin 0 = PInf \/ a / Fin 0 = NInf.
Proof.
  destruct a as [x | | | ]; simpl.
  - destruct (Req_dec_T 0 0) as [_ | N]; [ | now destruct N].
    destruct (Req_dec_T x 0) as [_ | _]; [now left | ].
    unfold Number.inf_like. destruct (Rlt_dec 0 x); auto.
  - destruct (Rlt_dec 0 0); auto.
  - destruct (Rlt_dec 0 0); auto.
  - now left.
Qed.

(** X1: a compounding frequency of zero is not guarded by
    [convertFromNominal].  The periodic rate is a quotient by zero, the
    exponent [m] is [0], and [x ** 0] is [1] for every [x]: whatever the
    nominal rate, the result reports an effective annual rate (and its
    copy, [simple]) of [0] and a force of interest of [NaN]; with the
    default target frequency [nominal] and [effectivePeriodic] are [0]
    too. *)
Theorem convertFromNominal_zero_frequency
    (nominalRate : number) (targetCompoundingFreq : optional) :
  let res := convertFromNominal nominalRate (Fin 0) targetCompoundingFreq in
  let res1 := convertFromNominal nominalRate (Fin 0) None in
  InterestRateConversion.effectiveAnnual res = Fin 0
  /\ InterestRateConversion.simple res = Fin 0
  /\ InterestRateConversion.forceOfInterest res = NaN
  /\ InterestRateConversion.nominal res1 = Fin 0
  /\ InterestRateConversion.effectivePeriodic res1 = Fin 0.
Proof.
  cbv zeta.
  cbv [convertFromNominal default_to InterestRateConversion.simple
       InterestRateConversion.effectiveAnnual InterestRateConversion.nominal
       InterestRateConversion.effectivePeriodic
       InterestRateConversion.forceOfInterest].
  rewrite pow_zero_exponent.
  assert (Hz : (Fin 1 - 1) * 100 = Fin 0).
  { rewrite sub_fin, mul_fin. f_equal. lra. }
  assert (Hq : Fin 0 / Fin 1 = Fin 0).
  { rewrite div_fin by lra. f_equal. lra. }
  rewrite Hq, pow_zero_exponent, Hz.
  split; [reflexivity | ]. split; [reflexivity | ].
  split; [ | split].
  - destruct (div_zero_cases (nominalRate / 100)) as [-> | [-> | ->]];
      simpl; try reflexivity.
    destruct (Req_dec_T 0 0) as [_ | N]; [reflexivity | now destruct N].
  - rewrite sub_fin, !mul_fin. f_equal. lra.
  - reflexivity.
Qed.

End ConversionEdges.

(** ** Further properties of the interest solvers *)

Section Solvers.

Local Open Scope js_scope.

(** X8: the simple-interest solver throws "Insufficient parameters for
    calculation" exactly when fewer than three of its four arguments are
    present and truthy, and returns a result otherwise; a zero counts as
    missing, so a zero rate with principal and time given throws. *)
Theorem calculateSimpleInterest_insufficient
    (principal rate time futureValue : optional) :
  let supplied :=
    (Nat.b2n (present principal) + Nat.b2n (present rate)
     + Nat.b2n (present time) + Nat.b2n (present futureValue))%nat in
  (calculateSimpleInterest principal rate time futureValue
     = Throw insufficient_parameters
   <-> (supplied < 3)%nat)
  /\ ((3 <= supplied)%nat
      <-> exists res,
          calculateSimpleInterest principal rate time futureValue
          = Return res)
  /\ calculateSimpleInterest (Some (Fin 1000)) (Some (Fin 0)) (Some (Fin 5))
       None = Throw insufficient_parameters.
Proof.
  cbv zeta. unfold calculateSimpleInterest.
  split; [ | split].
  - case_given principal; case_given rate; case_given time;
      case_given futureValue; simpl; split; intros H;
      first [discriminate H | reflexivity | lia].
  - case_given principal; case_given rate; case_given time;
      case_given futureValue; simpl; split; intros H;
      first [ lia | eexists; reflexivity
            | destruct H as [? H]; discriminate H ].
  - assert (Z0 : given (Some (Fin 0)) = None).
    { unfold given, Number.truthy.
      destruct (Req_dec_T 0 0) as [_ | N]; [reflexivity | now destruct N]. }
    rewrite Z0. simpl (given None).
    now destruct (given (Some (Fin 1000))), (given (Some (Fin 5))).
Qed.

End Solvers.


(** ** The loan page: payment and amortization table *)

Section GenericLoop.

Local Open Scope js_scope.

Context {A : Type}.
Variable body : number -> A -> A.

Lemma for_upto_step (fuel : nat) (bound i : number) (state : A) :
  for_upto (S fuel) bound body i state
  = if Number.leb i bound
    then for_upto fuel bound body (i + 1) (body i state)
    else Some state.
Proof. reflexivity. Qed.

(** Invariant rule for a loop over the indices [k+1 .. n]. *)
Lemma for_upto_invariant (Inv : nat -> A -> Prop) (n : nat) :
  (forall (k : nat) (state : A),
      (1 <= k <= n)%nat -> Inv (pred k) state ->
      Inv k (body (Fin (INR k)) state)) ->
  forall (j k : nat) (state : A) (fuel : nat),
    (k + j = n)%nat -> Inv k state -> (j < fuel)%nat ->
    exists v,
      for_upto fuel (Fin (INR n)) body (Fin (INR (S k))) state = Some v
      /\ Inv n v.
Proof.
  intros Hstep. induction j as [ | j IH]; intros k state fuel Hk Hinv Hfuel.
  - destruct fuel as [ | fuel]; [lia | ]. rewrite for_upto_step.
    unfold Number.leb.
    destruct (Rle_dec (INR (S k)) (INR n)) as [L | _].
    + apply INR_le in L. lia.
    + exists state. split; [reflexivity | ].
      now replace n with k by lia.
  - destruct fuel as [ | fuel]; [lia | ]. rewrite for_upto_step.
    unfold Number.leb.
    destruct (Rle_dec (INR (S k)) (INR n)) as [_ | N].
    + rewrite add_fin, <- (S_INR (S k)).
      apply IH; [lia | | lia].
      apply Hstep; [lia | exact Hinv].
    + exfalso. apply N. apply le_INR. lia.
Qed.

End GenericLoop.


Section AmortizationTable.

Local Open Scope js_scope.

Lemma nth_error_snoc {A : Type} (l : list A) (x e : A) (j : nat) :
  nth_error (l ++ [x]) j = Some e ->
  (j < List.length l)%nat /\ nth_error l j = Some e
  \/ j = List.length l /\ e = x.
Proof.
  intros H. destruct (Nat.lt_ge_cases j (List.length l)) as [Hlt | Hge].
  - left. split; [exact Hlt | ]. now rewrite nth_error_app1 in H.
  - right. rewrite nth_error_app2 in H by exact Hge.
    destruct (j - List.length l)%nat as [ | d] eqn:E.
    + simpl in H. injection H as <-. split; [lia | reflexivity].
    + simpl in H. destruct d; discriminate H.
Qed.

(** [Math.max(0, a)] never compares below zero. *)
Lemma math_max_zero_not_negative (a : number) :
  not_negative (math_max 0 a).
Proof.
  destruct a as [x | | | ]; simpl; try exact I.
  - apply Rmax_l.
  - lra.
Qed.

(** X14: for a whole number [N] of months (at most a million years) the
    amortization table has [N] rows, numbered [1 .. N], and in every row
    the remaining balance is clamped: it is never negative, whatever
    principal, rate and payment are passed (finite or not). *)
Theorem generateAmortizationTable_rows
    (principal annualRate monthlyPayment : number) (years : R)
    (N fuel : nat) :
  (years * 12)%R = INR N -> (years <= 1000000)%R -> (N < fuel)%nat ->
  exists table,
    generateAmortizationTable fuel principal annualRate (Fin years)
      monthlyPayment = Some table
    /\ List.length table = N
    /\ forall j e,
        nth_error table j = Some e ->
        AmortizationEntry.payment e = Fin (INR (S j))
        /\ not_negative (AmortizationEntry.remainingBalance e).
Proof.
  intros HN _ Hfuel.
  unfold generateAmortizationTable.
  rewrite mul_fin, HN.
  set (m := annualRate / 100 / 12).
  destruct (for_upto_invariant
              (amortization_step m monthlyPayment)
              (fun k st =>
                 List.length (snd st) = k
                 /\ forall j e,
                     nth_error (snd st) j = Some e ->
                     AmortizationEntry.payment e = Fin (INR (S j))
                     /\ not_negative (AmortizationEntry.remainingBalance e))
              N)
    with (j := N) (k := 0%nat)
         (state := (principal, @nil AmortizationEntry.t)) (fuel := fuel)
    as ([bal table] & Hv & Hlen & Hrows).
  - intros k [bal table] Hk (Hlen & Hrows).
    simpl in Hlen, Hrows.
    cbv [amortization_step fst snd].
    split; [rewrite length_app, Hlen; simpl; lia | ].
    intros j e Hnth. apply nth_error_snoc in Hnth.
    destruct Hnth as [[_ Hnth] | [Hj ->]].
    + exact (Hrows j e Hnth).
    + cbv [AmortizationEntry.payment AmortizationEntry.remainingBalance].
      split; [do 2 f_equal; lia | apply math_max_zero_not_negative].
  - lia.
  - simpl. split; [reflexivity | ].
    intros [ | j] e H; discriminate H.
  - exact Hfuel.
  - simpl in Hlen, Hrows. exists table.
    change (Fin (INR 1)) with (Fin 1) in Hv. rewrite Hv.
    split; [reflexivity | ]. split; assumption.
Qed.

(** The table of a one-year loan of 1200 at 12 percent, paid 110 a
    month. *)
Lemma generateAmortizationTable_rows_witness :
  exists table,
    generateAmortizationTable 13 (Fin 1200) (Fin 12) (Fin 1) (Fin 110)
    = Some table
    /\ List.length table = 12%nat.
Proof.
  destruct (generateAmortizationTable_rows
              (Fin 1200) (Fin 12) (Fin 110) 1 12 13)
    as (table & H & Hlen & _).
  - rewrite INR_IZR_INZ. simpl. lra.
  - lra.
  - lia.
  - exists table. split; assumption.
Defined.

End AmortizationTable.

Section AmortizationPayoff.

Local Open Scope js_scope.




End AmortizationPayoff.



(** ** Further properties of the Problem 6.4 solver *)

Section Problem64Edges.

Local Open Scope js_scope.

Lemma div_zero_not_finite (a : number) : ~ Number.is_finite (a / Fin 0).
Proof.
  destruct a as [x | | | ]; simpl.
  - destruct (Req_dec_T 0 0) as [_ | N]; [ | now destruct N].
    destruct (Req_dec_T x 0) as [_ | _]; [tauto | ].
    unfold Number.inf_like. destruct (Rlt_dec 0 x); tauto.
  - destruct (Rlt_dec 0 0); tauto.
  - destruct (Rlt_dec 0 0); tauto.
  - tauto.
Qed.

(** X20: an investment horizon of zero (or fewer) years is not guarded.
    The contribution loop does not run, [annuityFactor] stays [0], and
    [firstPayment] is the result of a division by zero: never a finite
    number.  A result is still returned whenever the withdrawal horizon
    is reachable. *)
Theorem solveProblem64_no_investment_horizon
    (years : R)
    (nominalRate initialInvestment inflationRate : optional)
    (firstWithdrawalValue withdrawalYears : optional) :
  (years <= 0)%R ->
  (forall fuel res,
      solveProblem64 fuel nominalRate initialInvestment inflationRate
        firstWithdrawalValue (Some (Fin years)) withdrawalYears = Some res ->
      ~ Number.is_finite (Problem64Result.firstPayment res))
  /\ (reachable_horizon withdrawalYears ->
      exists fuel res,
        solveProblem64 fuel nominalRate initialInvestment inflationRate
          firstWithdrawalValue (Some (Fin years)) withdrawalYears
        = Some res).
Proof.
  intros Hshort. split.
  - intros fuel res.
    cbv [solveProblem64 default_to]. unfold problem64_funding.
    destruct fuel as [ | fuel]; [discriminate | ].
    destruct (for_month (S fuel) _ (withdrawal_step _ _ _) _ _)
      as [pv | ]; [ | discriminate].
    rewrite mul_fin, for_month_step. unfold Number.leb.
    destruct (Rle_dec 1 (years * 12)) as [L | _]; [lra | ].
    intros H. apply some_inj in H. rewrite <- H.
    cbn [Problem64Result.firstPayment].
    apply div_zero_not_finite.
  - intros Hw. cbv [solveProblem64].
    apply problem64_funding_returns.
    + discriminate.
    + now apply reachable_horizon_not_infinite.
Qed.

(** The solver with [investmentYears = 0], other arguments defaulted. *)
Lemma solveProblem64_no_investment_horizon_witness :
  exists fuel res,
    solveProblem64 fuel None None None None (Some (Fin 0)) None = Some res
    /\ ~ Number.is_finite (Problem64Result.firstPayment res).
Proof.
  assert (Hshort : (0 <= 0)%R) by lra.
  destruct (solveProblem64_no_investment_horizon
              0 None None None None None Hshort) as (Hnf & Hret).
  destruct (Hret I) as (fuel & res & H).
  exists fuel, res. split; [exact H | exact (Hnf fuel res H)].
Defined.

(** X22: a withdrawal horizon of zero (or fewer) years is not guarded
    either.  The withdrawal loop does not run and the target fund is [0],
    whatever the other arguments; a result is returned whenever the
    investment horizon is reachable. *)
Theorem solveProblem64_no_withdrawals
    (years : R)
    (nominalRate initialInvestment inflationRate : optional)
    (firstWithdrawalValue investmentYears : optional) :
  (years <= 0)%R ->
  (forall fuel res,
      solveProblem64 fuel nominalRate initialInvestment inflationRate
        firstWithdrawalValue investmentYears (Some (Fin years)) = Some res ->
      Problem64Result.targetFund res = Fin 0)
  /\ (reachable_horizon investmentYears ->
      exists fuel res,
        solveProblem64 fuel nominalRate initialInvestment inflationRate
          firstWithdrawalValue investmentYears (Some (Fin years))
        = Some res).
Proof.
  intros Hshort. split.
  - intros fuel res.
    cbv [solveProblem64 default_to]. unfold problem64_funding.
    destruct fuel as [ | fuel]; [discriminate | ].
    rewrite (for_month_step (withdrawal_step _ _ _)).
    rewrite mul_fin. unfold Number.leb at 1.
    destruct (Rle_dec 1 (years * 12)) as [L | _]; [lra | ].
    destruct (for_month (S fuel) _ _ _ _) as [af | ]; [ | discriminate].
    intros H. apply some_inj in H. rewrite <- H.
    reflexivity.
  - intros Hi. cbv [solveProblem64].
    apply problem64_funding_returns.
    + now apply reachable_horizon_not_infinite.
    + discriminate.
Qed.

(** The solver with [withdrawalYears = 0], other arguments defaulted. *)
Lemma solveProblem64_no_withdrawals_witness :
  exists fuel res,
    solveProblem64 fuel None None None None None (Some (Fin 0)) = Some res
    /\ Problem64Result.targetFund res = Fin 0.
Proof.
  assert (Hshort : (0 <= 0)%R) by lra.
  destruct (solveProblem64_no_withdrawals
              0 None None None None None Hshort) as (Hzero & Hret).
  destruct (Hret I) as (fuel & res & H).
  exists fuel, res. split; [exact H | exact (Hzero fuel res H)].
Defined.

End Problem64Edges.

(** ** The growth chart of the compound-interest page *)

Section Chart.

Local Open Scope js_scope.





End Chart.
